(** * Candidate verification: risk scoring and red-flag aggregation

    A shallow embedding of the scoring pipeline of the candidate
    verification backend (backend/app.py and backend/verification/),
    followed by the properties its specification states about it.

    Conventions of the embedding.
    - Python [int] and [float] values are read as exact rationals ([Q]):
      [len(...)] is a natural number injected into [Q], [/] is exact
      division, comparisons are the rational ones.  Binary rounding of
      floats is not represented.
    - A Python [str] is a Rocq [string] of ASCII characters; character
      classes ([\s], [\w], [str.lower]) are the ASCII ones.
    - Result dictionaries with a fixed key set are records; dictionaries
      whose key set matters (the online-presence results, read with
      [.get]) are finite maps from key strings to Python values.
    - A call that can raise returns a sum or an option. *)

From stdpp Require Import base option list gmap strings pretty.
From Stdlib Require Import Ascii String ZArith QArith Qround Qminmax Lqa Lia.
From Stdlib Require Import Permutation Sorted.

Set Warnings "-register-all".
Close Scope Q_scope.

(** ** Python built-ins used by the source *)

Module Py.

Local Open Scope Q_scope.

(** [len(xs)] used in arithmetic. *)
Definition Qn (n : nat) : Q := inject_Z (Z.of_nat n).

Definition Qltb (x y : Q) : bool := negb (Qle_bool y x).

(** [min(a, b)] and [max(a, b)]: the first argument is kept unless the
    second is strictly smaller (resp. larger). *)
Definition min (a b : Q) : Q := if Qltb b a then b else a.
Definition max (a b : Q) : Q := if Qltb a b then b else a.

(** Nearest integer, ties to even. *)
Definition round_half_even (x : Q) : Z :=
  let f := Qfloor x in
  match Qcompare (x - inject_Z f) (1 # 2) with
  | Lt => f
  | Gt => (f + 1)%Z
  | Eq => if Z.even f then f else (f + 1)%Z
  end.

(** [round(x, 2)]. *)
Definition round2 (x : Q) : Q := round_half_even (x * 100) # 100.

(** [x ** 0.5]: the square root, truncated to sixteen decimals (exact
    on the squares of such numbers). *)
Definition pow_half (x : Q) : Q :=
  Z.sqrt (Qnum x * 10 ^ 32 / Z.pos (Qden x)) # 10 ^ 16.

(** [sum(xs)]. *)
Definition sum (xs : list Q) : Q := foldr Qplus 0 xs.

Local Open Scope string_scope.

Definition code (c : ascii) : nat := nat_of_ascii c.

Definition between (lo hi n : nat) : bool := (lo <=? n)%nat && (n <=? hi)%nat.

(** [c.isspace()], also the class [\s]. *)
Definition isspace (c : ascii) : bool :=
  between 9 13 (code c) || between 28 32 (code c).

Definition isupper (c : ascii) : bool := between 65 90 (code c).
Definition islower (c : ascii) : bool := between 97 122 (code c).
Definition isdigit (c : ascii) : bool := between 48 57 (code c).

(** The class [\w]. *)
Definition isword (c : ascii) : bool :=
  isupper c || islower c || isdigit c || (code c =? 95)%nat.

Definition lower_char (c : ascii) : ascii :=
  if isupper c then ascii_of_nat (code c + 32) else c.

(** [s.lower()]. *)
Fixpoint lower (s : string) : string :=
  match s with
  | EmptyString => EmptyString
  | String c s' => String (lower_char c) (lower s')
  end.

Definition is_empty (s : string) : bool :=
  match s with EmptyString => true | _ => false end.

(** [s + c]. *)
Definition snoc (s : string) (c : ascii) : string := s +:+ String c EmptyString.

Fixpoint lstrip (s : string) : string :=
  match s with
  | EmptyString => EmptyString
  | String c s' => if isspace c then lstrip s' else s
  end.

Fixpoint rstrip (s : string) : string :=
  match s with
  | EmptyString => EmptyString
  | String c s' =>
      let r := rstrip s' in
      if isspace c && is_empty r then EmptyString else String c r
  end.

(** [s.strip()]. *)
Definition strip (s : string) : string := rstrip (lstrip s).

Fixpoint split_from (cur s : string) : list string :=
  match s with
  | EmptyString => if is_empty cur then [] else [cur]
  | String c s' =>
      if isspace c
      then (if is_empty cur then split_from "" s' else cur :: split_from "" s')
      else split_from (snoc cur c) s'
  end.

(** [s.split()]: the maximal runs of non-space characters. *)
Definition split (s : string) : list string := split_from "" s.

(** [needle in hay]. *)
Fixpoint contains (needle hay : string) : bool :=
  String.prefix needle hay ||
  match hay with
  | EmptyString => false
  | String _ hay' => contains needle hay'
  end.

Fixpoint rev_from (acc s : string) : string :=
  match s with
  | EmptyString => acc
  | String c s' => rev_from (String c acc) s'
  end.

(** [s.endswith(suffix)]. *)
Definition endswith (s suffix : string) : bool :=
  String.prefix (rev_from "" suffix) (rev_from "" s).

(** [s.count(c)] for a one-character pattern. *)
Fixpoint count_char (c : ascii) (s : string) : nat :=
  match s with
  | EmptyString => 0
  | String d s' => (if Ascii.eqb c d then 1 else 0) + count_char c s'
  end.

(** Membership of a string in a list of strings ([x in xs]). *)
Definition mem (x : string) (xs : list string) : bool :=
  existsb (String.eqb x) xs.

Fixpoint rfind_from (i : nat) (last : option nat) (c : ascii) (s : string)
  : option nat :=
  match s with
  | EmptyString => last
  | String d s' => rfind_from (S i) (if Ascii.eqb c d then Some i else last) c s'
  end.

(** [s.rfind(c)], [None] for -1. *)
Definition rfind (c : ascii) (s : string) : option nat := rfind_from 0%nat None c s.

(** Some character of [s[i:j]] differs from [c]. *)
Definition some_other (c : ascii) (i j : nat) (s : string) : bool :=
  negb (forallb (Ascii.eqb c) (list_ascii_of_string (substring i (j - i)%nat s))).

(** [os.path.splitext(p)] (posixpath): the extension starts at the last
    dot of the last path component, leading dots of the component apart. *)
Definition splitext (p : string) : string * string :=
  let filenameIndex := match rfind "/" p with Some i => S i | None => 0%nat end in
  match rfind "." p with
  | Some dotIndex =>
      if (filenameIndex <=? dotIndex)%nat && some_other "." filenameIndex dotIndex p
      then (substring 0%nat dotIndex p, substring dotIndex (String.length p - dotIndex)%nat p)
      else (p, "")
  | None => (p, "")
  end.

(** [xs.sort(key=key, reverse=True)].  The sort of the runtime is
    stable, also under [reverse]; the stable descending order is
    computed here by insertion: an element goes in front of the first
    later element whose key is not greater than its own. *)
Fixpoint insert_desc {A : Type} (key : A -> Q) (x : A) (l : list A) : list A :=
  match l with
  | [] => [x]
  | y :: l' => if Qltb (key x) (key y) then y :: insert_desc key x l' else x :: y :: l'
  end.

Fixpoint sort_desc {A : Type} (key : A -> Q) (l : list A) : list A :=
  match l with
  | [] => []
  | x :: l' => insert_desc key x (sort_desc key l')
  end.

(** [len(set(xs))]. *)
Fixpoint distinct (xs : list string) : list string :=
  match xs with
  | [] => []
  | x :: xs' => if mem x xs' then distinct xs' else x :: distinct xs'
  end.

End Py.

(** ** Regular expressions of the source, each read off its pattern *)

Module Re.

Local Open Scope string_scope.

Definition is_terminator (c : ascii) : bool :=
  Ascii.eqb c "." || Ascii.eqb c "!" || Ascii.eqb c "?".

Fixpoint split_terminators_from (cur : string) (in_sep : bool) (s : string)
  : list string :=
  match s with
  | EmptyString => [cur]
  | String c s' =>
      if is_terminator c
      then (if in_sep then split_terminators_from "" true s'
            else cur :: split_terminators_from "" true s')
      else split_terminators_from (Py.snoc cur c) false s'
  end.

(** [re.split(r'[.!?]+', text)]: the pieces between maximal runs of
    terminators, the empty pieces at both ends included. *)
Definition split_terminators (text : string) : list string :=
  split_terminators_from "" false text.

Fixpoint findall_words_from (cur s : string) : list string :=
  match s with
  | EmptyString => if Py.is_empty cur then [] else [cur]
  | String c s' =>
      if Py.isword c then findall_words_from (Py.snoc cur c) s'
      else if Py.is_empty cur then findall_words_from "" s'
      else cur :: findall_words_from "" s'
  end.

(** [re.findall(r'\b\w+\b', text)]: the maximal runs of word characters. *)
Definition findall_words (text : string) : list string :=
  findall_words_from "" text.

Definition is_newline (c : ascii) : bool := Ascii.eqb c (ascii_of_nat 10).

(** The bullet class [[•\-\*]]; the glyph U+2022 is not an ASCII
    character, so on ASCII text the class is the hyphen and the star. *)
Definition is_bullet (c : ascii) : bool := Ascii.eqb c "-" || Ascii.eqb c "*".

Fixpoint word_prefix (s : string) : string :=
  match s with
  | EmptyString => EmptyString
  | String c s' => if Py.isword c then String c (word_prefix s') else EmptyString
  end.

(** One match of [\s*[•\-\*]\s*(\w+)] at the head of [s]: group 1 and
    the number of characters matched.  Spaces, bullets and word
    characters are disjoint classes, so the greedy match is the only one. *)
Definition match_bullet (s : string) : option (string * nat) :=
  let s1 := Py.lstrip s in
  match s1 with
  | EmptyString => None
  | String c s2 =>
      if is_bullet c then
        let s3 := Py.lstrip s2 in
        let w := word_prefix s3 in
        if Py.is_empty w then None
        else Some (w, String.length s - String.length s3 + String.length w)
      else None
  end.

Fixpoint findall_bullets_from (skip : nat) (bol : bool) (s : string)
  : list string :=
  match s with
  | EmptyString => []
  | String c s' =>
      match skip with
      | S k => findall_bullets_from k (is_newline c) s'
      | O =>
          match (if bol then match_bullet s else None) with
          | Some (w, n) => w :: findall_bullets_from (n - 1) (is_newline c) s'
          | None => findall_bullets_from 0 (is_newline c) s'
          end
      end
  end.

(** [re.findall(r'^\s*[•\-\*]\s*(\w+)', text, re.MULTILINE)]: scanning
    left to right, a match may start at the beginning of the text or
    after a newline; the search resumes where a match ended. *)
Definition findall_bullets (text : string) : list string :=
  findall_bullets_from 0 true text.

End Re.

(** ** backend/verification/ai_detector.py *)

Module AIDetector.

Local Open Scope string_scope.
Local Open Scope list_scope.
Local Open Scope Q_scope.
Import Py.

(** [self.ai_sentence_starters] and [self.action_verbs]. *)
Definition ai_sentence_starters : list string :=
  ["furthermore"; "moreover"; "additionally"; "in addition";
   "consequently"; "therefore"; "thus"; "hence"].

Definition action_verbs : list string :=
  ["developed"; "implemented"; "created"; "designed"; "built";
   "managed"; "led"; "orchestrated"; "spearheaded"; "championed";
   "optimized"; "streamlined"; "enhanced"; "improved"].

(** The result dictionaries of the six sub-checks. *)
Record pattern_score := { match_count : nat; examples : list string }.
Record score_dict := { score : Q }.
Record grammar_score := { is_perfect : bool; details : list string }.
Record verb_pattern :=
  { is_repetitive : bool; pattern_type : option string; verb_details : option string }.
Record personal_score := { lacks_personality : bool; personal : Q }.

(** The sub-checks that are a matter of backtracking regular
    expressions only ([_check_ai_patterns], [_check_repetitive_patterns],
    [_check_personal_content]) are taken through their result
    dictionaries: everything below holds for whatever they return. *)
Class RegexChecks := {
  _check_ai_patterns : string -> pattern_score;
  _check_repetitive_patterns : string -> verb_pattern;
  _check_personal_content : string -> personal_score
}.

Definition _check_sentence_uniformity (text : string) : score_dict :=
  let sentences := Re.split_terminators text in
  let sentences :=
    map strip (List.filter (fun s => (10 <? String.length (strip s))%nat) sentences) in
  if (List.length sentences <? 5)%nat then {| score := 0 |} else
  let lengths := map (fun s => List.length (split s)) sentences in
  let avg_length := sum (map Qn lengths) / Qn (List.length lengths) in
  let variance :=
    sum (map (fun l => (Qn l - avg_length) ^ 2) lengths) / Qn (List.length lengths) in
  let std_dev := pow_half variance in
  let uniformity := max 0 (1 - std_dev / 10) in
  let bullets := Re.findall_bullets text in
  let uniformity :=
    match bullets with
    | [] => uniformity
    | _ :: _ =>
        let action_verb_starts :=
          List.length (List.filter (fun b => mem (lower b) action_verbs) bullets) in
        if (3 <? List.length bullets)%nat
           && Qltb (9 # 10) (Qn action_verb_starts / Qn (List.length bullets))
        then max uniformity (8 # 10)
        else uniformity
    end in
  {| score := round2 uniformity |}.

Definition _check_vocabulary_diversity (text : string) : score_dict :=
  let words := Re.findall_words (lower text) in
  if (List.length words <? 50)%nat then {| score := 0 |} else
  let unique_words := distinct words in
  let ttr := Qn (List.length unique_words) / Qn (List.length words) in
  {| score := round2 ttr |}.

Definition colloquialisms : list string :=
  ["got"; "gonna"; "wanna"; "kinda"; "sorta"; "&"; "etc."; "i.e."; "e.g."].

Definition _check_perfect_grammar (text : string) : grammar_score :=
  let indicators : list string := [] in
  let has_colloquialisms := existsb (fun word => contains word (lower text)) colloquialisms in
  let indicators :=
    if negb has_colloquialisms && (200 <? String.length text)%nat
    then indicators ++ ["No informal language or colloquialisms"]
    else indicators in
  let formal_starts :=
    List.length (List.filter (fun starter => contains starter (lower text)) ai_sentence_starters) in
  let indicators :=
    if (3 <? formal_starts)%nat
    then indicators ++ ["Uses " +:+ pretty formal_starts +:+ " overly formal sentence starters"]
    else indicators in
  let semicolon_count := count_char ";" text in
  let sentence_count := List.length (Re.split_terminators text) in
  let indicators :=
    if Qltb (Qn sentence_count * (1 # 10)) (Qn semicolon_count)
    then indicators ++ ["Excessive use of semicolons"]
    else indicators in
  {| is_perfect := (2 <=? List.length indicators)%nat; details := indicators |}.

Definition _calculate_confidence
    (pattern_score : pattern_score) (uniformity_score vocab_score : score_dict)
    (grammar_score : grammar_score) (verb_pattern : verb_pattern)
    (personal_score : personal_score) : Q :=
  let confidence := 0 in
  let confidence :=
    if (8 <? match_count pattern_score)%nat then confidence + 30
    else if (5 <? match_count pattern_score)%nat then confidence + 20
    else if (3 <? match_count pattern_score)%nat then confidence + 10
    else confidence in
  let confidence := confidence + score uniformity_score * 20 in
  let confidence :=
    if Qltb (75 # 100) (score vocab_score) || Qltb (score vocab_score) (35 # 100)
    then confidence + 15 else confidence in
  let confidence := if is_perfect grammar_score then confidence + 15 else confidence in
  let confidence := if is_repetitive verb_pattern then confidence + 10 else confidence in
  let confidence := if lacks_personality personal_score then confidence + 10 else confidence in
  min (confidence / 100) 1.

(** The entries of [results['indicators']], by their ['type'], each with
    the data its dictionary carries. *)
Inductive indicator :=
  | COMMON_AI_PHRASES (count : nat) (first_examples : list string)
  | UNIFORM_SENTENCE_STRUCTURE (s : Q)
  | EXCESSIVE_VOCABULARY (s : Q)
  | REPETITIVE_VOCABULARY (s : Q)
  | OVERLY_PERFECT_GRAMMAR (details : list string)
  | REPETITIVE_STRUCTURE (pattern_type : option string) (details : option string)
  | LACKS_PERSONALITY (s : Q).

Record ai_detection := {
  is_ai_generated : bool;
  confidence : Q;
  indicators : list indicator;
  pattern_matches : nat;
  sentence_uniformity : Q;
  vocabulary_diversity : Q
}.

Section Detect.
Context `{RegexChecks}.

Definition detect_ai_content (text : string) : ai_detection :=
  let indicators : list indicator := [] in
  let pattern_score := _check_ai_patterns text in
  let indicators :=
    if (5 <? match_count pattern_score)%nat
    then indicators ++ [COMMON_AI_PHRASES (match_count pattern_score)
                                          (firstn 3 (examples pattern_score))]
    else indicators in
  let uniformity_score := _check_sentence_uniformity text in
  let indicators :=
    if Qltb (7 # 10) (score uniformity_score)
    then indicators ++ [UNIFORM_SENTENCE_STRUCTURE (score uniformity_score)]
    else indicators in
  let vocab_score := _check_vocabulary_diversity text in
  let indicators :=
    if Qltb (8 # 10) (score vocab_score)
    then indicators ++ [EXCESSIVE_VOCABULARY (score vocab_score)]
    else if Qltb (score vocab_score) (3 # 10)
    then indicators ++ [REPETITIVE_VOCABULARY (score vocab_score)]
    else indicators in
  let grammar_score := _check_perfect_grammar text in
  let indicators :=
    if is_perfect grammar_score
    then indicators ++ [OVERLY_PERFECT_GRAMMAR (details grammar_score)]
    else indicators in
  let verb_pattern := _check_repetitive_patterns text in
  let indicators :=
    if is_repetitive verb_pattern
    then indicators ++ [REPETITIVE_STRUCTURE (pattern_type verb_pattern)
                                             (verb_details verb_pattern)]
    else indicators in
  let personal_score := _check_personal_content text in
  let indicators :=
    if lacks_personality personal_score
    then indicators ++ [LACKS_PERSONALITY (personal personal_score)]
    else indicators in
  let confidence :=
    _calculate_confidence pattern_score uniformity_score vocab_score
                          grammar_score verb_pattern personal_score in
  {| is_ai_generated := Qltb (6 # 10) confidence;
     confidence := round2 confidence;
     indicators := indicators;
     pattern_matches := match_count pattern_score;
     sentence_uniformity := score uniformity_score;
     vocabulary_diversity := score vocab_score |}.

End Detect.

End AIDetector.

(** ** backend/verification/resume_analyzer.py *)

(** A call that can raise: the value, or [str(e)] of the exception. *)
Inductive result (A : Type) :=
  | Ok (a : A)
  | Raise (msg : string).
Arguments Ok {A} a.
Arguments Raise {A} msg.

(** An uploaded file: its name and its bytes. *)
Record file := { filename : string; content : string }.

Module ResumeAnalyzer.

Local Open Scope string_scope.
Local Open Scope list_scope.
Local Open Scope Q_scope.
Import Py.

Definition trap_terms : list string := ["back-office engineering"].

(** [self.incorrect_terms], in insertion order. *)
Definition incorrect_terms : list (string * string) :=
  [("kubenetes", "kubernetes"); ("dock", "docker");
   ("jenkin", "jenkins"); ("anisble", "ansible")].

Definition buzzwords : list string :=
  ["synergy"; "paradigm shift"; "blockchain"; "AI/ML"; "cloud-native";
   "microservices"; "kubernetes"; "docker"; "terraform"; "ansible";
   "CI/CD"; "DevOps"; "agile"; "scrum"; "serverless"].

Record generic_content := { is_generic : bool; match_percentage : Q }.
Record career_progression :=
  { has_rapid_progression : bool; positions_found : nat }.
Record buzzword_density :=
  { density : Q; buzzword_count : nat; is_excessive : bool }.
Record trap_check :=
  { has_trap_terms : bool; terms_found : list string; critical_flag : bool }.
Record specificity := {
  specificity_score : Q;
  metrics_count : nat;
  version_references : nat;
  specific_details : nat;
  is_vague : bool
}.
Record consistency := {
  dates_valid : bool;
  has_overlaps : bool;
  overlaps : list string;
  date_errors : list string;
  total_experience_years : Z;
  career_progression_valid : bool
}.
Record terminology_error := { found : string; should_be : string; context : string }.
Record terminology :=
  { has_errors : bool; errors : list terminology_error; error_count : nat }.

(** The document readers behind [extract_text] (PyPDF2, python-docx and
    the UTF-8 decoder), each of which may raise. *)
Class Extractors := {
  _extract_from_pdf : file -> result string;
  _extract_from_docx : file -> result string;
  decode_utf8 : string -> result string
}.

(** The checks that are a matter of backtracking regular expressions
    and of the clock, taken through their result dictionaries. *)
Class RegexChecks := {
  _check_generic_content : string -> string -> generic_content;
  _check_career_progression : string -> career_progression;
  _calculate_specificity : string -> specificity;
  check_consistency : string -> consistency
}.

Definition extract_text `{Extractors} (file : file) : result string :=
  let filename := lower (filename file) in
  if endswith filename ".pdf" then _extract_from_pdf file
  else if endswith filename ".docx" then _extract_from_docx file
  else if endswith filename ".txt" then decode_utf8 (content file)
  else Raise "Unsupported file format. Please upload PDF, DOCX, or TXT".

Definition _calculate_buzzword_density (resume_text : string) : buzzword_density :=
  let words := split (lower resume_text) in
  let buzzword_count :=
    List.length
      (List.filter (fun word => existsb (fun buzz => contains buzz word) buzzwords) words) in
  let density :=
    match words with
    | [] => 0
    | _ :: _ => Qn buzzword_count / Qn (List.length words) * 100
    end in
  {| density := round2 density;
     buzzword_count := buzzword_count;
     is_excessive := Qltb 5 density |}.

Definition _check_trap_terms (resume_text : string) : trap_check :=
  let resume_lower := lower resume_text in
  let found_traps :=
    List.filter (fun trap => contains (lower trap) resume_lower) trap_terms in
  {| has_trap_terms := (0 <? List.length found_traps)%nat;
     terms_found := found_traps;
     critical_flag := (0 <? List.length found_traps)%nat |}.

Definition check_terminology (resume_text : string) : terminology :=
  let resume_lower := lower resume_text in
  let errors :=
    map (fun '(incorrect, correct) =>
           {| found := incorrect; should_be := correct;
              context := "Possible typo or lack of familiarity with technology" |})
        (List.filter (fun '(incorrect, _) => contains incorrect resume_lower)
                     incorrect_terms) in
  {| has_errors := (0 <? List.length errors)%nat;
     errors := errors;
     error_count := List.length errors |}.

(** The findings of [identify_red_flags], by their ['type'], each with
    the data its description is rendered from. *)
Inductive finding :=
  | TRAP_TERM_DETECTED (terms : list string)
  | EXACT_JD_MATCH (pct : Q)
  | HIGH_JD_SIMILARITY (pct : Q)
  | EXCESSIVE_BUZZWORDS (d : Q)
  | MODERATE_BUZZWORDS (d : Q)
  | VAGUE_CONTENT (s : Q)
  | TERMINOLOGY_ERROR (found should_be : string)
  | RAPID_PROGRESSION.

Inductive severity_tier := SEVERITY_CRITICAL | SEVERITY_WARNING | SEVERITY_MINOR.

(** The ['severity'] each finding is created with. *)
Definition severity (f : finding) : severity_tier :=
  match f with
  | TRAP_TERM_DETECTED _ | EXACT_JD_MATCH _ => SEVERITY_CRITICAL
  | MODERATE_BUZZWORDS _ => SEVERITY_MINOR
  | _ => SEVERITY_WARNING
  end.

Record red_flags := {
  critical : list finding;
  warning : list finding;
  minor : list finding;
  total_count : nat
}.

Record authenticity := {
  generic_content_of : generic_content;
  unrealistic_progression : career_progression;
  buzzword_density_of : buzzword_density;
  trap_terms_found : trap_check;
  specificity_score_of : specificity
}.

Section Analyze.
Context `{RegexChecks}.

Definition analyze_authenticity (resume_text job_description : string)
  : authenticity :=
  {| generic_content_of := _check_generic_content resume_text job_description;
     unrealistic_progression := _check_career_progression resume_text;
     buzzword_density_of := _calculate_buzzword_density resume_text;
     trap_terms_found := _check_trap_terms resume_text;
     specificity_score_of := _calculate_specificity resume_text |}.

Definition identify_red_flags (resume_text job_description : string)
  : red_flags :=
  let critical : list finding := [] in
  let warning : list finding := [] in
  let minor : list finding := [] in
  let trap_check := _check_trap_terms resume_text in
  let critical :=
    if has_trap_terms trap_check
    then critical ++ [TRAP_TERM_DETECTED (terms_found trap_check)]
    else critical in
  let '(critical, warning) :=
    if negb (is_empty job_description) then
      let generic_check := _check_generic_content resume_text job_description in
      if Qltb 90 (match_percentage generic_check)
      then (critical ++ [EXACT_JD_MATCH (match_percentage generic_check)], warning)
      else if Qltb 75 (match_percentage generic_check)
      then (critical, warning ++ [HIGH_JD_SIMILARITY (match_percentage generic_check)])
      else (critical, warning)
    else (critical, warning) in
  let buzzword_check := _calculate_buzzword_density resume_text in
  let '(warning, minor) :=
    if Qltb 8 (density buzzword_check)
    then (warning ++ [EXCESSIVE_BUZZWORDS (density buzzword_check)], minor)
    else if Qltb 5 (density buzzword_check)
    then (warning, minor ++ [MODERATE_BUZZWORDS (density buzzword_check)])
    else (warning, minor) in
  let specificity := _calculate_specificity resume_text in
  let warning :=
    if is_vague specificity
    then warning ++ [VAGUE_CONTENT (specificity_score specificity)]
    else warning in
  let terminology := check_terminology resume_text in
  let warning :=
    if has_errors terminology
    then warning ++ map (fun error => TERMINOLOGY_ERROR (found error) (should_be error))
                        (errors terminology)
    else warning in
  let progression := _check_career_progression resume_text in
  let warning :=
    if has_rapid_progression progression
    then warning ++ [RAPID_PROGRESSION]
    else warning in
  {| critical := critical;
     warning := warning;
     minor := minor;
     total_count := List.length critical + List.length warning + List.length minor |}.

End Analyze.

End ResumeAnalyzer.

(** ** backend/verification/online_presence.py *)

Module OnlinePresence.

Local Open Scope string_scope.
Local Open Scope list_scope.
Import Py.

(** Python values as they occur in the presence results. *)
Inductive pyval :=
  | PNone
  | PBool (b : bool)
  | PNum (q : Q)
  | PStr (s : string)
  | PList (l : list pyval)
  | PDict (d : gmap string pyval).

Abbreviation pydict := (gmap string pyval).

(** [bool(v)]. *)
Definition truthy (v : pyval) : bool :=
  match v with
  | PNone => false
  | PBool b => b
  | PNum q => negb (Qeq_bool q 0)
  | PStr s => negb (is_empty s)
  | PList l => match l with [] => false | _ :: _ => true end
  | PDict d => negb (bool_decide (d = ∅))
  end.

(** [d.get(k)] and [d.get(k, dflt)]. *)
Definition get (d : pydict) (k : string) : pyval := default PNone (d !! k).
Definition get_or (d : pydict) (k : string) (dflt : pyval) : pyval :=
  default dflt (d !! k).

(** A value on which [.get] is called next: anything but a dictionary
    raises. *)
Definition as_dict (v : pyval) : option pydict :=
  match v with PDict d => Some d | _ => None end.

(** A value that is iterated over as a list of dictionaries. *)
Definition as_list (v : pyval) : option (list pyval) :=
  match v with PList l => Some l | _ => None end.

(** [v > 0]; only numbers and booleans compare with an integer. *)
Definition gt0 (v : pyval) : option bool :=
  match v with
  | PNum q => Some (Qltb 0 q)
  | PBool b => Some b
  | _ => None
  end.

(** A dictionary literal. *)
Definition dict (kvs : list (string * pyval)) : pydict := list_to_map kvs.

(** [d[k].append(x)]. *)
Definition append_to (d : pydict) (k : string) (x : pyval) : option pydict :=
  match d !! k with
  | Some (PList l) => Some (<[k := PList (l ++ [x])]> d)
  | _ => None
  end.

(** The look-ups behind [verify_presence]: the e-mail validator, the
    phone-number library, the GitHub API and the advisory payloads built
    from the candidate's fields.  Each returns a dictionary, or raises.
    [str_of] is the rendering of a value inside an f-string. *)
Class Lookups := {
  _check_email : pyval -> option pydict;
  _check_phone : pyval -> option pydict;
  _check_linkedin_presence : pyval -> option pydict;
  _check_github_presence : pyval -> option pydict;
  _check_google_presence : pydict -> option pydict;
  _check_data_breaches : pyval -> option pydict;
  str_of : pyval -> string
}.

Definition osint_tools : gmap string string :=
  list_to_map
    [("thatsthem", "https://thatsthem.com/");
     ("haveibeenpwned", "https://haveibeenpwned.com/api/v3/breachedaccount/");
     ("whatsmyname", "https://whatsmyname.app/");
     ("intelx", "https://intelx.io/");
     ("familytreenow", "https://www.familytreenow.com/")].

Definition _get_presence_level (score : Q) : string :=
  if Qle_bool 70 score then "STRONG"
  else if Qle_bool 50 score then "MODERATE"
  else if Qle_bool 30 score then "WEAK"
  else "MINIMAL/SUSPICIOUS".

(** [any(p.get('public_repos', 0) > 0 for p in profiles)], stopping at
    the first profile that has repositories. *)
Fixpoint any_public_repos (profiles : list pyval) : option bool :=
  match profiles with
  | [] => Some false
  | p :: rest =>
      d ← as_dict p;
      b ← gt0 (get_or d "public_repos" (PNum 0));
      if b : bool then Some true else any_public_repos rest
  end.

Definition _calculate_presence_score (results : pydict) : option Q :=
  let score := 0%Q in
  checks ← results !! "checks" ≫= as_dict;
  email ← as_dict (get_or checks "email" (PDict ∅));
  let score := if truthy (get email "valid") then (score + 20)%Q else score in
  let score := if truthy (get email "is_disposable") then (score - 30)%Q else score in
  phone ← as_dict (get_or checks "phone" (PDict ∅));
  let score := if truthy (get phone "valid") then (score + 15)%Q else score in
  github ← as_dict (get_or checks "github" (PDict ∅));
  score ←
    (if truthy (get github "exists") && truthy (get github "profiles_found") then
       profiles ← github !! "profiles_found" ≫= as_list;
       b ← any_public_repos profiles;
       Some (if b : bool then (score + 25)%Q else (score + 10)%Q)
     else Some score);
  Some (max 0 (min score 100)).

Section Verify.
Context `{Lookups}.

Definition osint_recommendations (candidate_info : pydict) : pyval :=
  let tool (name key purpose action : string) :=
    PDict (dict [("tool", PStr name);
                 ("url", PStr (default "" (osint_tools !! key)));
                 ("purpose", PStr purpose);
                 ("action", PStr action)]) in
  PList
    [tool "ThatsThem" "thatsthem" "Search for name, phone, address, email"
          ("Search for: " +:+ str_of (get candidate_info "name") +:+ ", "
           +:+ str_of (get candidate_info "email"));
     tool "HaveIBeenPwned" "haveibeenpwned" "Check if email appears in data breaches"
          ("Check email: " +:+ str_of (get candidate_info "email"));
     tool "WhatsMyName" "whatsmyname" "Search for username across 400+ platforms"
          "Extract potential usernames from email/LinkedIn and search";
     tool "Intelligence X" "intelx" "Deep web search for email, domain, name"
          "Search for email and name in dark web databases";
     tool "FamilyTreeNow" "familytreenow" "Verify US-based candidates (public records)"
          "Search for name and location to verify identity"].

Definition _analyze_presence_results (results : pydict) : option pydict :=
  checks ← results !! "checks" ≫= as_dict;
  email_check ← as_dict (get_or checks "email" (PDict ∅));
  results ←
    (if truthy (get email_check "is_disposable") then
       append_to results "red_flags"
         (PDict (dict [("type", PStr "DISPOSABLE_EMAIL");
                       ("severity", PStr "CRITICAL");
                       ("description", PStr "Candidate is using a disposable email address");
                       ("recommendation", PStr "REJECT - Clear fraud indicator")]))
     else if truthy (get email_check "is_suspicious") then
       append_to results "warnings"
         (PDict (dict [("type", PStr "SUSPICIOUS_EMAIL");
                       ("severity", PStr "WARNING");
                       ("description", PStr "Email address has suspicious patterns");
                       ("flags", get_or email_check "flags" (PList []))]))
     else Some results);
  phone_check ← as_dict (get_or checks "phone" (PDict ∅));
  results ←
    (if truthy (get phone_check "flags") then
       append_to results "warnings"
         (PDict (dict [("type", PStr "SUSPICIOUS_PHONE");
                       ("severity", PStr "WARNING");
                       ("description", PStr "Phone number has suspicious characteristics");
                       ("flags", get_or phone_check "flags" (PList []))]))
     else Some results);
  github_check ← as_dict (get_or checks "github" (PDict ∅));
  results ←
    (if negb (truthy (get github_check "exists")) then
       append_to results "warnings"
         (PDict (dict [("type", PStr "NO_GITHUB_PRESENCE");
                       ("severity", PStr "WARNING");
                       ("description",
                        PStr "No GitHub profile found - unusual for DevOps candidate");
                       ("recommendation",
                        PStr "Ask candidate about their open source contributions or personal projects")]))
     else Some results);
  candidate_info ← results !! "candidate_info" ≫= as_dict;
  let results := <["osint_recommendations" := osint_recommendations candidate_info]> results in
  presence_score ← _calculate_presence_score results;
  let results := <["presence_score" := PNum presence_score]> results in
  let results := <["presence_level" := PStr (_get_presence_level presence_score)]> results in
  Some results.

Definition verify_presence (candidate_info : pydict) : option pydict :=
  email ← _check_email (get candidate_info "email");
  phone ← _check_phone (get candidate_info "phone");
  linkedin ← _check_linkedin_presence (get candidate_info "name");
  github ← _check_github_presence (get candidate_info "name");
  google ← _check_google_presence candidate_info;
  data_breaches ← _check_data_breaches (get candidate_info "email");
  let results :=
    dict [("candidate_info", PDict candidate_info);
          ("checks", PDict (dict [("email", PDict email);
                                  ("phone", PDict phone);
                                  ("linkedin", PDict linkedin);
                                  ("github", PDict github);
                                  ("google", PDict google);
                                  ("data_breaches", PDict data_breaches)]));
          ("red_flags", PList []);
          ("warnings", PList []);
          ("osint_recommendations", PList [])] in
  _analyze_presence_results results.

End Verify.

End OnlinePresence.

(** ** backend/app.py *)

Module App.

Local Open Scope string_scope.
Local Open Scope list_scope.
Local Open Scope Q_scope.
Import Py.
Import OnlinePresence (pyval, pydict, truthy, get).

Inductive risk_level := MINIMAL | LOW | MEDIUM | HIGH | CRITICAL.

(** The dictionary [calculate_risk_score] reads. *)
Record resume_results := {
  ai_detection : AIDetector.ai_detection;
  red_flags : ResumeAnalyzer.red_flags;
  consistency_check : ResumeAnalyzer.consistency
}.

Definition calculate_risk_score (results : resume_results) : Q :=
  let score := 0 in
  let score :=
    if AIDetector.is_ai_generated (ai_detection results)
    then score + AIDetector.confidence (ai_detection results) * 30
    else score in
  let red_flags := red_flags results in
  let score := score + Qn (List.length (ResumeAnalyzer.critical red_flags)) * 10 in
  let score := score + Qn (List.length (ResumeAnalyzer.warning red_flags)) * 5 in
  let score := score + Qn (List.length (ResumeAnalyzer.minor red_flags)) * 2 in
  let consistency := consistency_check results in
  let score := if negb (ResumeAnalyzer.dates_valid consistency) then score + 15 else score in
  let score :=
    if negb (ResumeAnalyzer.career_progression_valid consistency) then score + 15 else score in
  min score 100.

(** [results['resume_verification']] and [results['online_verification']]
    of the comprehensive and batch endpoints. *)
Record resume_verification := {
  authenticity : ResumeAnalyzer.authenticity;
  rv_ai_detection : AIDetector.ai_detection;
  consistency : ResumeAnalyzer.consistency;
  terminology : ResumeAnalyzer.terminology;
  rv_red_flags : ResumeAnalyzer.red_flags
}.

Record online_verification := {
  linkedin : option pydict;
  presence : pydict
}.

Record comprehensive_results := {
  resume_verification_of : resume_verification;
  online_verification_of : online_verification
}.

Definition weight_resume : Q := 4 # 10.
Definition weight_linkedin : Q := 3 # 10.
Definition weight_online_presence : Q := 3 # 10.

Definition resume_score (resume_data : resume_verification) : Q :=
  let resume_score := 0 in
  let resume_score :=
    if AIDetector.is_ai_generated (rv_ai_detection resume_data)
    then resume_score + AIDetector.confidence (rv_ai_detection resume_data) * 30
    else resume_score in
  let red_flags := rv_red_flags resume_data in
  let resume_score :=
    resume_score + Qn (List.length (ResumeAnalyzer.critical red_flags)) * 10 in
  let resume_score :=
    resume_score + Qn (List.length (ResumeAnalyzer.warning red_flags)) * 5 in
  resume_score.

Definition linkedin_score (linkedin_data : pydict) : Q :=
  let linkedin_score := 0 in
  let linkedin_score :=
    if truthy (get linkedin_data "recently_created") then linkedin_score + 30
    else linkedin_score in
  let linkedin_score :=
    if negb (truthy (get linkedin_data "has_verification_badge")) then linkedin_score + 20
    else linkedin_score in
  let linkedin_score :=
    if truthy (get linkedin_data "low_connections") then linkedin_score + 25
    else linkedin_score in
  let linkedin_score :=
    if truthy (get linkedin_data "vague_experience") then linkedin_score + 25
    else linkedin_score in
  linkedin_score.

Definition presence_score (presence_data : pydict) : Q :=
  let presence_score := 0 in
  let presence_score :=
    if negb (truthy (get presence_data "has_linkedin")) then presence_score + 30
    else presence_score in
  let presence_score :=
    if negb (truthy (get presence_data "has_github")) then presence_score + 20
    else presence_score in
  let presence_score :=
    if negb (truthy (get presence_data "has_google_presence")) then presence_score + 30
    else presence_score in
  let presence_score :=
    if truthy (get presence_data "email_suspicious") then presence_score + 20
    else presence_score in
  presence_score.

(** The three blocks of the function are the three definitions above. *)
Definition calculate_comprehensive_risk (results : comprehensive_results) : Q :=
  let score := 0 in
  let resume_data := resume_verification_of results in
  let score := score + resume_score resume_data * weight_resume in
  let linkedin_data := linkedin (online_verification_of results) in
  let score :=
    match linkedin_data with
    | Some d =>
        if truthy (OnlinePresence.PDict d)
        then score + linkedin_score d * weight_linkedin
        else score
    | None => score
    end in
  let presence_data := presence (online_verification_of results) in
  let score := score + presence_score presence_data * weight_online_presence in
  min score 100.

Definition get_risk_level (score : Q) : risk_level :=
  if Qle_bool 70 score then CRITICAL
  else if Qle_bool 50 score then HIGH
  else if Qle_bool 30 score then MEDIUM
  else if Qle_bool 15 score then LOW
  else MINIMAL.

(** [get_recommendation(score, results)]; [results] is not read. *)
Definition get_recommendation (score : Q) : string :=
  if Qle_bool 70 score then
    "REJECT - Multiple critical fraud indicators detected. Do not proceed with this candidate."
  else if Qle_bool 50 score then
    "CAUTION - Significant red flags present. Conduct thorough additional verification before proceeding."
  else if Qle_bool 30 score then
    "INVESTIGATE - Some concerning patterns detected. Additional screening recommended."
  else if Qle_bool 15 score then
    "PROCEED WITH NORMAL SCREENING - Minor concerns noted. Standard interview process recommended."
  else
    "PROCEED - No significant fraud indicators detected. Continue with normal hiring process.".

(** *** The batch endpoint *)

(** The ['risk_level'] of a batch entry: a level, or ['ERROR']. *)
Inductive entry_level := Level (l : risk_level) | ERROR.

(** The dictionary appended for a file that was processed. *)
Record scored_entry := {
  se_filename : string;
  se_candidate_name : string;
  risk_score : Q;
  risk_level_of : risk_level;
  ai_generated : bool;
  ai_confidence : Q;
  critical_flags : nat;
  warning_flags : nat;
  minor_flags : nat;
  trap_terms_found : bool;
  buzzword_density : Q;
  specificity_score : Q;
  dates_valid : bool;
  total_experience_years : Z;
  recommendation : string;
  detailed_results : resume_verification
}.

(** An element of [results]: the full dictionary, or the one the
    exception handler appends (['filename'], ['candidate_name'],
    ['error'], with ['risk_score'] 0 and ['risk_level'] ['ERROR']). *)
Inductive entry :=
  | Scored (e : scored_entry)
  | Failed (filename candidate_name error : string).

(** [x.get('risk_score', 0)], [r.get('risk_level')],
    [r.get('ai_generated')], [r.get('trap_terms_found')], [r.get('error')]. *)
Definition entry_risk_score (x : entry) : Q :=
  match x with Scored e => risk_score e | Failed _ _ _ => 0 end.
Definition entry_risk_level (r : entry) : entry_level :=
  match r with Scored e => Level (risk_level_of e) | Failed _ _ _ => ERROR end.
Definition entry_ai_generated (r : entry) : bool :=
  match r with Scored e => ai_generated e | Failed _ _ _ => false end.
Definition entry_trap_terms_found (r : entry) : bool :=
  match r with Scored e => trap_terms_found e | Failed _ _ _ => false end.
Definition entry_error (r : entry) : option string :=
  match r with Scored _ => None | Failed _ _ error => Some error end.
Definition entry_filename (r : entry) : string :=
  match r with Scored e => se_filename e | Failed filename _ _ => filename end.

Definition has_level (l : risk_level) (r : entry) : bool :=
  match entry_risk_level r, l with
  | Level MINIMAL, MINIMAL | Level LOW, LOW | Level MEDIUM, MEDIUM
  | Level HIGH, HIGH | Level CRITICAL, CRITICAL => true
  | _, _ => false
  end.

Record batch_summary := {
  critical_risk : nat;
  high_risk : nat;
  medium_risk : nat;
  low_risk : nat;
  minimal_risk : nat;
  ai_generated_count : nat;
  trap_terms_count : nat
}.

Record batch_response := {
  total_files : nat;
  processed : nat;
  failed : nat;
  results : list entry;
  summary : batch_summary
}.

(** What the endpoint returns: the JSON body, or the 400 answer. *)
Inductive response :=
  | OK (body : batch_response)
  | BadRequest (error : string).

Section Batch.
Context `{AIDetector.RegexChecks}
        `{ResumeAnalyzer.RegexChecks} `{ResumeAnalyzer.Extractors}.

(** The extension test at the head of the loop body. *)
Definition is_resume_file (file : file) : bool :=
  let filename := lower (filename file) in
  endswith filename ".pdf" || endswith filename ".docx" || endswith filename ".txt".

(** The [try] block after the extension test: the entry of the file, or
    the exception raised on the way. *)
Definition verify_file (file : file) (job_description : string)
  : result scored_entry :=
  let candidate_name := fst (splitext (filename file)) in
  match ResumeAnalyzer.extract_text file with
  | Raise e => Raise e
  | Ok resume_text =>
      let resume_verification :=
        {| authenticity := ResumeAnalyzer.analyze_authenticity resume_text job_description;
           rv_ai_detection := AIDetector.detect_ai_content resume_text;
           consistency := ResumeAnalyzer.check_consistency resume_text;
           terminology := ResumeAnalyzer.check_terminology resume_text;
           rv_red_flags := ResumeAnalyzer.identify_red_flags resume_text job_description |} in
      let risk_score :=
        calculate_risk_score
          {| ai_detection := rv_ai_detection resume_verification;
             red_flags := rv_red_flags resume_verification;
             consistency_check := consistency resume_verification |} in
      Ok {| se_filename := filename file;
            se_candidate_name := candidate_name;
            risk_score := risk_score;
            risk_level_of := get_risk_level risk_score;
            ai_generated := AIDetector.is_ai_generated (rv_ai_detection resume_verification);
            ai_confidence := AIDetector.confidence (rv_ai_detection resume_verification);
            critical_flags :=
              List.length (ResumeAnalyzer.critical (rv_red_flags resume_verification));
            warning_flags :=
              List.length (ResumeAnalyzer.warning (rv_red_flags resume_verification));
            minor_flags :=
              List.length (ResumeAnalyzer.minor (rv_red_flags resume_verification));
            trap_terms_found :=
              ResumeAnalyzer.has_trap_terms
                (ResumeAnalyzer.trap_terms_found (authenticity resume_verification));
            buzzword_density :=
              ResumeAnalyzer.density
                (ResumeAnalyzer.buzzword_density_of (authenticity resume_verification));
            specificity_score :=
              ResumeAnalyzer.specificity_score
                (ResumeAnalyzer.specificity_score_of (authenticity resume_verification));
            dates_valid := ResumeAnalyzer.dates_valid (consistency resume_verification);
            total_experience_years :=
              ResumeAnalyzer.total_experience_years (consistency resume_verification);
            recommendation := get_recommendation risk_score;
            detailed_results := resume_verification |}
  end.

(** The body of the [try] block for one file: [None] when it leaves
    through [continue], the entry or the exception otherwise. *)
Definition try_file (file : file) (job_description : string)
  : option (result scored_entry) :=
  if negb (is_resume_file file) then None
  else Some (verify_file file job_description).

(** One turn of [for file in files], on the loop variables
    [(results, processed, failed)]: the [try] block and its handler. *)
Definition batch_step (job_description : string)
    (st : list entry * nat * nat) (file : file) : list entry * nat * nat :=
  let '(results, processed, failed) := st in
  match try_file file job_description with
  | None => (results, processed, failed)
  | Some (Ok result) => (results ++ [Scored result], S processed, failed)
  | Some (Raise e) =>
      (results ++ [Failed (filename file) (fst (splitext (filename file))) e],
       processed, S failed)
  end.

Definition count (p : entry -> bool) (results : list entry) : nat :=
  List.length (List.filter p results).

(** The [for] loop, from the empty [results] and the two zero counters. *)
Definition batch_loop (files : list file) (job_description : string)
  : list entry * nat * nat :=
  fold_left (batch_step job_description) files ([], 0%nat, 0%nat).

Definition batch_verification (files : list file) (job_description : string)
  : response :=
  match files with
  | [] => BadRequest "No files provided"
  | _ :: _ =>
      let '(results, processed, failed) := batch_loop files job_description in
      let results := sort_desc entry_risk_score results in
      OK {| total_files := List.length files;
            processed := processed;
            failed := failed;
            results := results;
            summary :=
              {| critical_risk := count (has_level CRITICAL) results;
                 high_risk := count (has_level HIGH) results;
                 medium_risk := count (has_level MEDIUM) results;
                 low_risk := count (has_level LOW) results;
                 minimal_risk := count (has_level MINIMAL) results;
                 ai_generated_count := count entry_ai_generated results;
                 trap_terms_count := count entry_trap_terms_found results |} |}
  end.

End Batch.

End App.

(** ** The formulas of the specification, in its own words *)

Module Spec.

Local Open Scope Q_scope.
Import Py.

(** [scoreResume]: 30 x aiConfidence (if AI-generated) + 10 x critical +
    5 x warning + 2 x minor + 15 (if dates invalid) + 15 (if
    progression invalid), clamped to 100. *)
Definition scoreResume (b : App.resume_results) : Q :=
  let ai := App.ai_detection b in
  let flags := App.red_flags b in
  let dates := App.consistency_check b in
  Qmin (30 * (if AIDetector.is_ai_generated ai then AIDetector.confidence ai else 0)
        + 10 * Qn (List.length (ResumeAnalyzer.critical flags))
        + 5 * Qn (List.length (ResumeAnalyzer.warning flags))
        + 2 * Qn (List.length (ResumeAnalyzer.minor flags))
        + (if ResumeAnalyzer.dates_valid dates then 0 else 15)
        + (if ResumeAnalyzer.career_progression_valid dates then 0 else 15))
       100.

(** The resume sub-score of [scoreComprehensive]:
    30 x aiConfidence (if flagged) + 10 x critical + 5 x warning. *)
Definition resumeSubScore (ai : AIDetector.ai_detection) (critical warning : nat) : Q :=
  30 * (if AIDetector.is_ai_generated ai then AIDetector.confidence ai else 0)
  + 10 * Qn critical + 5 * Qn warning.

(** The ordinal position of a risk level. *)
Definition rank (l : App.risk_level) : nat :=
  match l with
  | App.MINIMAL => 0
  | App.LOW => 1
  | App.MEDIUM => 2
  | App.HIGH => 3
  | App.CRITICAL => 4
  end.

(** Sentence-length uniformity: the sentences between terminators that
    have more than 10 characters, the standard deviation of their word
    counts, and max(0, 1 - stddev/10); 0 below 5 such sentences. *)
Definition qualifying_sentences (text : string) : list string :=
  List.filter (fun s => (10 <? String.length s)%nat)
              (map strip (Re.split_terminators text)).

Definition mean (xs : list Q) : Q := sum xs / Qn (List.length xs).

Definition stddev (xs : list Q) : Q :=
  pow_half (mean (map (fun x => (x - mean xs) ^ 2) xs)).

Definition word_counts (text : string) : list Q :=
  map (fun s => Qn (List.length (split s))) (qualifying_sentences text).

Definition uniformity (text : string) : Q :=
  if (List.length (qualifying_sentences text) <? 5)%nat then 0
  else max 0 (1 - stddev (word_counts text) / 10).

(** The bullet rule of the source: more than 3 bullet lines, more than
    90% of which start with an action verb. *)
Definition action_verb_bullets (text : string) : bool :=
  let bullets := Re.findall_bullets text in
  let starts :=
    List.filter (fun b => mem (lower b) AIDetector.action_verbs) bullets in
  (3 <? List.length bullets)%nat
  && Qltb (9 # 10) (Qn (List.length starts) / Qn (List.length bullets)).

(** The points of the confidence sum that do not come from the
    sentence uniformity. *)
Definition other_points
    (p : AIDetector.pattern_score) (v : AIDetector.score_dict)
    (g : AIDetector.grammar_score) (r : AIDetector.verb_pattern)
    (s : AIDetector.personal_score) : Q :=
  (if (8 <? AIDetector.match_count p)%nat then 30
   else if (5 <? AIDetector.match_count p)%nat then 20
   else if (3 <? AIDetector.match_count p)%nat then 10 else 0)
  + (if Qltb (75 # 100) (AIDetector.score v) || Qltb (AIDetector.score v) (35 # 100)
     then 15 else 0)
  + (if AIDetector.is_perfect g then 15 else 0)
  + (if AIDetector.is_repetitive r then 10 else 0)
  + (if AIDetector.lacks_personality s then 10 else 0).

(** Descending order of batch entries by score, and the entries of one
    score. *)
Definition by_score_desc (a b : App.entry) : Prop :=
  App.entry_risk_score b <= App.entry_risk_score a.

Definition with_score (q : Q) (e : App.entry) : bool :=
  Qeq_bool (App.entry_risk_score e) q.

Section BatchEntries.
Context `{AIDetector.RegexChecks}
        `{ResumeAnalyzer.RegexChecks} `{ResumeAnalyzer.Extractors}.

(** What one input contributes to a batch, taken alone: the failed entry
    (score 0, level ERROR, the message) when its processing raises, its
    full entry when it completes, nothing when it is skipped. *)
Definition entries_of (job_description : string) (f : file) : list App.entry :=
  match App.try_file f job_description with
  | Some (Ok r) => [App.Scored r]
  | Some (Raise e) => [App.Failed (filename f) (fst (splitext (filename f))) e]
  | None => []
  end.

Definition fails (job_description : string) (f : file) : bool :=
  match App.try_file f job_description with Some (Raise _) => true | _ => false end.

Definition succeeds (job_description : string) (f : file) : bool :=
  match App.try_file f job_description with Some (Ok _) => true | _ => false end.

End BatchEntries.

End Spec.

(** ** Sample collaborators, used to run the definitions on concrete inputs *)

Module Examples.

Local Open Scope string_scope.
Local Open Scope list_scope.
Import OnlinePresence.

Definition newline : string := String (ascii_of_nat 10) EmptyString.

(** What the regular-expression checks of the detector return on a text
    with no AI phrase, fewer than five bullets and no personal marker. *)
Definition plain_ai_checks : AIDetector.RegexChecks :=
  {| AIDetector._check_ai_patterns := fun _ =>
       {| AIDetector.match_count := 0; AIDetector.examples := [] |};
     AIDetector._check_repetitive_patterns := fun _ =>
       {| AIDetector.is_repetitive := false;
          AIDetector.pattern_type := None;
          AIDetector.verb_details := None |};
     AIDetector._check_personal_content := fun _ =>
       {| AIDetector.lacks_personality := true; AIDetector.personal := 0 |} |}.

(** What the regular-expression checks of the analyzer return on a text
    with no date range and no metric, against an empty job description. *)
Definition plain_resume_checks : ResumeAnalyzer.RegexChecks :=
  {| ResumeAnalyzer._check_generic_content := fun _ _ =>
       {| ResumeAnalyzer.is_generic := false; ResumeAnalyzer.match_percentage := 0 |};
     ResumeAnalyzer._check_career_progression := fun _ =>
       {| ResumeAnalyzer.has_rapid_progression := false;
          ResumeAnalyzer.positions_found := 0 |};
     ResumeAnalyzer._calculate_specificity := fun _ =>
       {| ResumeAnalyzer.specificity_score := 0;
          ResumeAnalyzer.metrics_count := 0;
          ResumeAnalyzer.version_references := 0;
          ResumeAnalyzer.specific_details := 0;
          ResumeAnalyzer.is_vague := true |};
     ResumeAnalyzer.check_consistency := fun _ =>
       {| ResumeAnalyzer.dates_valid := true;
          ResumeAnalyzer.has_overlaps := false;
          ResumeAnalyzer.overlaps := [];
          ResumeAnalyzer.date_errors := [];
          ResumeAnalyzer.total_experience_years := 0;
          ResumeAnalyzer.career_progression_valid := true |} |}.

(** Readers for plain ASCII uploads: text files decode to themselves,
    and bytes that are not a PDF or DOCX container are refused. *)
Definition ascii_extractors : ResumeAnalyzer.Extractors :=
  {| ResumeAnalyzer._extract_from_pdf := fun _ => Raise "EOF marker not found";
     ResumeAnalyzer._extract_from_docx := fun _ => Raise "File is not a zip file";
     ResumeAnalyzer.decode_utf8 := fun bytes =>
       if forallb (fun c => (Py.code c <? 128)%nat) (list_ascii_of_string bytes)
       then Ok bytes
       else Raise "'utf-8' codec can't decode bytes" |}.

(** The look-ups for a candidate who gave no name, e-mail or phone. *)
Definition anonymous_lookups : Lookups :=
  {| _check_email := fun _ =>
       Some (dict [("valid", PBool false); ("error", PStr "No email provided")]);
     _check_phone := fun _ =>
       Some (dict [("valid", PBool false); ("error", PStr "No phone number provided")]);
     _check_linkedin_presence := fun _ =>
       Some (dict [("exists", PBool false); ("error", PStr "No name provided")]);
     _check_github_presence := fun _ =>
       Some (dict [("exists", PBool false); ("error", PStr "No name provided")]);
     _check_google_presence := fun _ =>
       Some (dict [("has_presence", PBool false); ("error", PStr "No name provided")]);
     _check_data_breaches := fun _ =>
       Some (dict [("checked", PBool false); ("error", PStr "No email provided")]);
     str_of := fun v => match v with PStr s => s | _ => "None" end |}.

Definition anonymous : pydict :=
  dict [("name", PStr ""); ("email", PStr ""); ("phone", PStr ""); ("location", PStr "")].

(** Six bullet sentences of 3 and 9 words in turn, each bullet starting
    with an action verb. *)
Definition bullet_resume : string :=
  "- developed tools." +:+ newline +:+
  "- built a b c d e f g." +:+ newline +:+
  "- created apps." +:+ newline +:+
  "- designed a b c d e f g." +:+ newline +:+
  "- managed teams." +:+ newline +:+
  "- led a b c d e f g.".

Definition trap_resume : string :=
  "Five years of Back-Office Engineering at a bank".

Definition txt (name body : string) : file := {| filename := name; content := body |}.

(** A batch entry that carries a given name and score. *)
Definition entry_scoring (name : string) (score : Q) : App.entry :=
  match @App.verify_file plain_ai_checks plain_resume_checks ascii_extractors
                         (txt (name +:+ ".txt") "") "" with
  | Ok e =>
      App.Scored
        {| App.se_filename := App.se_filename e;
           App.se_candidate_name := App.se_candidate_name e;
           App.risk_score := score;
           App.risk_level_of := App.get_risk_level score;
           App.ai_generated := App.ai_generated e;
           App.ai_confidence := App.ai_confidence e;
           App.critical_flags := App.critical_flags e;
           App.warning_flags := App.warning_flags e;
           App.minor_flags := App.minor_flags e;
           App.trap_terms_found := App.trap_terms_found e;
           App.buzzword_density := App.buzzword_density e;
           App.specificity_score := App.specificity_score e;
           App.dates_valid := App.dates_valid e;
           App.total_experience_years := App.total_experience_years e;
           App.recommendation := App.get_recommendation score;
           App.detailed_results := App.detailed_results e |}
  | Raise msg => App.Failed name name msg
  end.

(** The bundle and the comprehensive results of [trap_resume], for an
    anonymous candidate with no LinkedIn URL. *)
Definition trap_bundle : App.resume_results :=
  {| App.ai_detection := @AIDetector.detect_ai_content plain_ai_checks trap_resume;
     App.red_flags := @ResumeAnalyzer.identify_red_flags plain_resume_checks trap_resume "";
     App.consistency_check := @ResumeAnalyzer.check_consistency plain_resume_checks trap_resume |}.

Definition anonymous_presence : pydict :=
  default ∅ (@verify_presence anonymous_lookups anonymous).

Definition trap_comprehensive : App.comprehensive_results :=
  {| App.resume_verification_of :=
       {| App.authenticity :=
            @ResumeAnalyzer.analyze_authenticity plain_resume_checks trap_resume "";
          App.rv_ai_detection := App.ai_detection trap_bundle;
          App.consistency := App.consistency_check trap_bundle;
          App.terminology := ResumeAnalyzer.check_terminology trap_resume;
          App.rv_red_flags := App.red_flags trap_bundle |};
     App.online_verification_of :=
       {| App.linkedin := None; App.presence := anonymous_presence |} |}.

(** Four entries with the scores 10, 90, 50, 90, in submission order. *)
Definition four_entries : list App.entry :=
  [entry_scoring "a" 10; entry_scoring "b" 90; entry_scoring "c" 50; entry_scoring "d" 90].

(** A batch of three uploads: a text resume with the trap term, bytes
    that are no PDF, and a file that is no resume. *)
Definition three_uploads : list file :=
  [txt "ann.txt" trap_resume; txt "bob.pdf" "junk"; txt "notes.doc" "memo"].

End Examples.

(** ** backend/verification/linkedin_checker.py *)

Module LinkedIn.

Local Open Scope string_scope.
Local Open Scope list_scope.
Import Py OnlinePresence.

(** The Wayback Machine look-up; it catches its own exceptions and always
    returns a dictionary. *)
Class Archive := { _check_wayback_machine : string -> pydict }.

Fixpoint drop (n : nat) (s : string) : string :=
  match n, s with
  | S k, String _ s' => drop k s'
  | _, _ => s
  end.

Fixpoint take_while (p : ascii -> bool) (s : string) : string :=
  match s with
  | EmptyString => EmptyString
  | String c s' => if p c then String c (take_while p s') else EmptyString
  end.

Fixpoint drop_while (p : ascii -> bool) (s : string) : string :=
  match s with
  | EmptyString => EmptyString
  | String c s' => if p c then drop_while p s' else s
  end.

(** What is left of [s] after the literal [p], when [s] starts with it. *)
Definition after (p s : string) : option string :=
  if String.prefix p s then Some (drop (String.length p) s) else None.

(** An optional literal, matched greedily. *)
Definition after_opt (p s : string) : string := default s (after p s).

Definition not_slash (c : ascii) : bool := negb (Ascii.eqb c "/").

(** One match of [linkedin\.com/in/([^/]+)] at the head of [s]: group 1. *)
Definition username_here (s : string) : option string :=
  match after "linkedin.com/in/" s with
  | Some rest =>
      let u := take_while not_slash rest in
      if is_empty u then None else Some u
  | None => None
  end.

(** [re.search(r'linkedin\.com/in/([^/]+)', profile_url)]: group 1 of the
    leftmost match. *)
Fixpoint search_username (s : string) : option string :=
  match username_here s with
  | Some u => Some u
  | None =>
      match s with
      | EmptyString => None
      | String _ s' => search_username s'
      end
  end.

Definition is_letter (c : ascii) : bool := isupper c || islower c.
Definition is_slug_char (c : ascii) : bool :=
  is_letter c || isdigit c || Ascii.eqb c "-".

(** [re.match(r'^https?://(?:www\.)?linkedin\.com/in/[a-zA-Z0-9-]+/?$', url)];
    [$] is the end of the string or the place before a final newline. *)
Definition url_format_valid (url : string) : bool :=
  match after "http" url with
  | None => false
  | Some s =>
      match after "://" (after_opt "s" s) with
      | None => false
      | Some s =>
          match after "linkedin.com/in/" (after_opt "www." s) with
          | None => false
          | Some s =>
              let rest := drop_while is_slug_char s in
              if (String.length rest =? String.length s)%nat then false
              else
                let rest := after_opt "/" rest in
                is_empty rest || String.eqb rest (String (ascii_of_nat 10) "")
          end
      end
  end.

(** A run of at least [n] characters of the class [p] at the head of [s]. *)
Definition run_at_least (n : nat) (p : ascii -> bool) (s : string) : bool :=
  (n <=? String.length (take_while p s))%nat.

(** [r'^\d{5,}'], [r'^[a-z]{1,2}\d{5,}'], [r'[a-z]{20,}'] and
    [r'^(test|fake|demo)'], each searched with [re.IGNORECASE]. *)
Definition starts_with_digits (username : string) : bool :=
  run_at_least 5 isdigit username.

Definition letters_then_digits (username : string) : bool :=
  match username with
  | String a rest =>
      is_letter a &&
      match rest with
      | String b rest' =>
          if is_letter b then run_at_least 5 isdigit rest'
          else run_at_least 5 isdigit rest
      | EmptyString => false
      end
  | EmptyString => false
  end.

Fixpoint long_letter_run (username : string) : bool :=
  run_at_least 20 is_letter username ||
  match username with
  | EmptyString => false
  | String _ rest => long_letter_run rest
  end.

Definition test_account (username : string) : bool :=
  existsb (fun w => String.prefix w (lower username)) ["test"; "fake"; "demo"].

(** [suspicious_patterns], each pattern with its matcher. *)
Definition suspicious_patterns : list (string * (string -> bool)) :=
  [("^\d{5,}", starts_with_digits);
   ("^[a-z]{1,2}\d{5,}", letters_then_digits);
   ("[a-z]{20,}", long_letter_run);
   ("^(test|fake|demo)", test_account)].

Section Checks.
Context `{Archive}.

Definition _perform_automated_checks (profile_url username : string) : pydict :=
  let checks :=
    dict [("url_format_valid", PBool false);
          ("profile_accessible", PBool false);
          ("suspicious_username_pattern", PBool false);
          ("wayback_machine_check", PNone)] in
  let checks :=
    if url_format_valid profile_url
    then <["url_format_valid" := PBool true]> checks else checks in
  let checks :=
    match List.find (fun '(_, matches) => matches username) suspicious_patterns with
    | Some (pattern, _) =>
        <["username_pattern_matched" := PStr pattern]>
          (<["suspicious_username_pattern" := PBool true]> checks)
    | None => checks
    end in
  let wayback_data := _check_wayback_machine profile_url in
  let checks := <["wayback_machine_check" := PDict wayback_data]> checks in
  let checks :=
    if (String.length username <? 5)%nat
    then <["username_too_short" := PBool true]> checks else checks in
  checks.

Definition _calculate_linkedin_risk (automated_checks : pydict) : option Q :=
  let risk := 0%Q in
  let risk :=
    if negb (truthy (get automated_checks "url_format_valid")) then (risk + 20)%Q
    else risk in
  let risk :=
    if truthy (get automated_checks "suspicious_username_pattern") then (risk + 30)%Q
    else risk in
  let risk :=
    if truthy (get automated_checks "username_too_short") then (risk + 15)%Q
    else risk in
  wayback ← as_dict (get_or automated_checks "wayback_machine_check" (PDict ∅));
  let risk :=
    if truthy (get wayback "has_archive") then (risk - 10)%Q else (risk + 10)%Q in
  Some (max 0 (min risk 100)).

Definition _get_risk_level (score : Q) : string :=
  if Qle_bool 70 score then "CRITICAL"
  else if Qle_bool 50 score then "HIGH"
  else if Qle_bool 30 score then "MEDIUM"
  else "LOW".

Definition manual_checks_required (profile_url : string) : pyval :=
  PList
    [PDict (dict
       [("check", PStr "Profile Age");
        ("instructions", PStr "Go to More → About this profile → Joined");
        ("red_flag", PStr "Profile created within 1-2 months, especially if created same month as job posting");
        ("warning", PStr "Profile less than 6 months old")]);
     PDict (dict
       [("check", PStr "Verification Badge");
        ("instructions", PStr "Check if profile has LinkedIn verification badge");
        ("red_flag", PStr "No verification badge despite being available to legitimate users")]);
     PDict (dict
       [("check", PStr "Experience Details");
        ("instructions", PStr "Review work experience entries");
        ("red_flag", PStr "Only company, title, and dates listed with no role descriptions");
        ("warning", PStr "Vague or generic descriptions")]);
     PDict (dict
       [("check", PStr "Connections");
        ("instructions", PStr "Check connection count and mutual connections");
        ("red_flag", PStr "Less than 10 connections");
        ("warning", PStr "Less than 50 connections or no mutual connections in same region/field")]);
     PDict (dict
       [("check", PStr "Engagement");
        ("instructions", PStr "Review posts, comments, and activity");
        ("red_flag", PStr "No posts or only generic engagement");
        ("warning", PStr "Very limited activity history")]);
     PDict (dict
       [("check", PStr "Profile Photo");
        ("instructions", PStr "Examine profile photo");
        ("red_flag", PStr "No photo or AI-generated looking photo");
        ("tools", PStr "Use reverse image search or AI detection tools")]);
     PDict (dict
       [("check", PStr "Account Rotation");
        ("instructions", PStr "Check Wayback Machine (web.archive.org) for historical data");
        ("red_flag", PStr "Profile shows different name/person in archived versions");
        ("url", PStr ("https://web.archive.org/web/*/" +:+ profile_url))])].

(** [verify_profile]; [None] when [_calculate_linkedin_risk] raises. *)
Definition verify_profile (profile_url : string) : option pydict :=
  if is_empty profile_url then Some (dict [("error", PStr "No profile URL provided")])
  else
    match search_username profile_url with
    | None => Some (dict [("error", PStr "Invalid LinkedIn URL format")])
    | Some username =>
        let results :=
          dict [("profile_url", PStr profile_url);
                ("username", PStr username);
                ("checks_performed", PList []);
                ("red_flags", PList []);
                ("warnings", PList []);
                ("risk_score", PNum 0)] in
        let results :=
          <["manual_checks_required" := manual_checks_required profile_url]> results in
        let automated_checks := _perform_automated_checks profile_url username in
        let results := <["automated_checks" := PDict automated_checks]> results in
        risk_score ← _calculate_linkedin_risk automated_checks;
        let results := <["risk_score" := PNum risk_score]> results in
        let results := <["risk_level" := PStr (_get_risk_level risk_score)]> results in
        Some results
    end.

End Checks.

End LinkedIn.

(** ** backend/verification/report_generator.py *)

Module Report.

Local Open Scope string_scope.
Local Open Scope list_scope.

(** [s.replace(c, by)] for a pattern [c] of one character. *)
Fixpoint replace_char (c : ascii) (by_ : string) (s : string) : string :=
  match s with
  | EmptyString => EmptyString
  | String d s' =>
      if Ascii.eqb c d then by_ +:+ replace_char c by_ s'
      else String d (replace_char c by_ s')
  end.

Definition double_quote : ascii := ascii_of_nat 34.
Definition apostrophe : ascii := ascii_of_nat 39.

(** [_escape_html(text)] for [None] and for a string. *)
Definition _escape_html (text : option string) : string :=
  match text with
  | None => ""
  | Some text =>
      replace_char apostrophe "&#39;"
        (replace_char double_quote "&quot;"
           (replace_char ">" "&gt;"
              (replace_char "<" "&lt;"
                 (replace_char "&" "&amp;" text))))
  end.

(** The list [high_priority] that both reports compute from
    [batch_results['results']]: the entries whose level is CRITICAL or HIGH. *)
Definition high_priority (results : list App.entry) : list App.entry :=
  List.filter (fun r => App.has_level App.CRITICAL r || App.has_level App.HIGH r) results.

End Report.

(** ** backend/app.py: the single-resume and the comprehensive endpoint *)

Module Endpoints.

Local Open Scope string_scope.
Local Open Scope list_scope.
Import Py OnlinePresence.

(** The answer of an endpoint: the JSON body, the 400 answer, or the 500
    answer with [str(e)] (left out where the exception comes from a
    look-up whose message is not modelled). *)
Inductive response (A : Type) :=
  | Http200 (body : A)
  | Http400 (error : string)
  | Http500 (error : option string).
Arguments Http200 {A} body.
Arguments Http400 {A} error.
Arguments Http500 {A} error.

(** The body of [verify_resume]. *)
Record resume_report := {
  resume_analysis : ResumeAnalyzer.authenticity;
  ai_detection : AIDetector.ai_detection;
  consistency_check : ResumeAnalyzer.consistency;
  terminology_check : ResumeAnalyzer.terminology;
  red_flags : ResumeAnalyzer.red_flags;
  risk_score : Q;
  risk_level : App.risk_level
}.

(** The form of [comprehensive_verification]: the uploaded file, if any,
    and the text fields, each with the default [''] . *)
Record comprehensive_form := {
  resume_file : option file;
  job_description : string;
  linkedin_url : string;
  name : string;
  email : string;
  phone : string;
  location : string
}.

(** The body of [comprehensive_verification]. *)
Record comprehensive_report := {
  candidate_name : string;
  candidate_email : string;
  candidate_linkedin : string;
  resume_verification : App.resume_verification;
  online_verification : App.online_verification;
  overall_risk_score : Q;
  overall_risk_level : App.risk_level;
  recommendation : string
}.

Section Handlers.
Context `{AIDetector.RegexChecks}
        `{ResumeAnalyzer.RegexChecks} `{ResumeAnalyzer.Extractors}
        `{Lookups} `{LinkedIn.Archive}.

Definition verify_resume (file : option file) (job_description : string)
  : response resume_report :=
  match file with
  | None => Http400 "No file provided"
  | Some file =>
      match ResumeAnalyzer.extract_text file with
      | Raise e => Http500 (Some e)
      | Ok resume_text =>
          let results :=
            {| App.ai_detection := AIDetector.detect_ai_content resume_text;
               App.red_flags :=
                 ResumeAnalyzer.identify_red_flags resume_text job_description;
               App.consistency_check := ResumeAnalyzer.check_consistency resume_text |} in
          let risk_score := App.calculate_risk_score results in
          Http200
            {| resume_analysis :=
                 ResumeAnalyzer.analyze_authenticity resume_text job_description;
               ai_detection := App.ai_detection results;
               consistency_check := App.consistency_check results;
               terminology_check := ResumeAnalyzer.check_terminology resume_text;
               red_flags := App.red_flags results;
               risk_score := risk_score;
               risk_level := App.get_risk_level risk_score |}
      end
  end.

Definition comprehensive_verification (form : comprehensive_form)
  : response comprehensive_report :=
  match resume_file form with
  | None => Http400 "No resume file provided"
  | Some file =>
      match ResumeAnalyzer.extract_text file with
      | Raise e => Http500 (Some e)
      | Ok resume_text =>
          let resume_verification :=
            {| App.authenticity :=
                 ResumeAnalyzer.analyze_authenticity resume_text (job_description form);
               App.rv_ai_detection := AIDetector.detect_ai_content resume_text;
               App.consistency := ResumeAnalyzer.check_consistency resume_text;
               App.terminology := ResumeAnalyzer.check_terminology resume_text;
               App.rv_red_flags :=
                 ResumeAnalyzer.identify_red_flags resume_text (job_description form) |} in
          let linkedin :=
            if is_empty (linkedin_url form) then Some None
            else Some <$> LinkedIn.verify_profile (linkedin_url form) in
          match linkedin with
          | None => Http500 None
          | Some linkedin =>
              match verify_presence
                      (dict [("name", PStr (name form));
                             ("email", PStr (email form));
                             ("phone", PStr (phone form));
                             ("location", PStr (location form))]) with
              | None => Http500 None
              | Some presence =>
                  let results :=
                    {| App.resume_verification_of := resume_verification;
                       App.online_verification_of :=
                         {| App.linkedin := linkedin; App.presence := presence |} |} in
                  let risk_score := App.calculate_comprehensive_risk results in
                  Http200
                    {| candidate_name := name form;
                       candidate_email := email form;
                       candidate_linkedin := linkedin_url form;
                       resume_verification := resume_verification;
                       online_verification := App.online_verification_of results;
                       overall_risk_score := risk_score;
                       overall_risk_level := App.get_risk_level risk_score;
                       recommendation := App.get_recommendation risk_score |}
              end
          end
      end
  end.

End Handlers.

End Endpoints.

(** ** Notions used to state what the code does beyond the specification *)

Module Notes.

Local Open Scope string_scope.
Local Open Scope list_scope.
Import Py.

(** Every character of [s] satisfies [p]. *)
Fixpoint all_chars (p : ascii -> bool) (s : string) : bool :=
  match s with
  | EmptyString => true
  | String c s' => p c && all_chars p s'
  end.

(** No character of [s] satisfies [p]. *)
Definition no_char (p : ascii -> bool) (s : string) : bool :=
  all_chars (fun c => negb (p c)) s.

(** A character that can occur in a word of [text.lower().split()]. *)
Definition word_char (c : ascii) : bool := negb (isspace c) && negb (isupper c).

(** The buzzwords written without a capital letter and without a space. *)
Definition matchable_buzzwords : list string :=
  List.filter (all_chars word_char) ResumeAnalyzer.buzzwords.

(** The replacement of one character by [_escape_html]. *)
Definition escape_char (c : ascii) : string :=
  if Ascii.eqb c "&" then "&amp;"
  else if Ascii.eqb c "<" then "&lt;"
  else if Ascii.eqb c ">" then "&gt;"
  else if Ascii.eqb c Report.double_quote then "&quot;"
  else if Ascii.eqb c Report.apostrophe then "&#39;"
  else String c "".

Fixpoint escape_all (s : string) : string :=
  match s with
  | EmptyString => EmptyString
  | String c s' => escape_char c +:+ escape_all s'
  end.

Definition is_markup (c : ascii) : bool :=
  Ascii.eqb c "<" || Ascii.eqb c ">"
  || Ascii.eqb c Report.double_quote || Ascii.eqb c Report.apostrophe.

End Notes.

(** ** More sample collaborators *)

Module MoreExamples.

Local Open Scope string_scope.
Local Open Scope list_scope.
Import OnlinePresence.

(** An archive with no snapshot of any profile. *)
Definition empty_archive : LinkedIn.Archive :=
  {| LinkedIn._check_wayback_machine := fun _ =>
       dict [("has_archive", PBool false);
             ("note", PStr "No archived versions found - could indicate new profile")] |}.

Definition trap_form : Endpoints.comprehensive_form :=
  {| Endpoints.resume_file := Some (Examples.txt "ann.txt" Examples.trap_resume);
     Endpoints.job_description := "";
     Endpoints.linkedin_url := "https://www.linkedin.com/in/ann-lee";
     Endpoints.name := "";
     Endpoints.email := "";
     Endpoints.phone := "";
     Endpoints.location := "" |}.

End MoreExamples.

(** * Properties *)

(** ** The numeric built-ins *)

Module PyFacts.

Local Open Scope Q_scope.
Import Py.

Lemma Qltb_true (x y : Q) : Qltb x y = true <-> x < y.
Proof.
  unfold Qltb. rewrite negb_true_iff. split.
  - intros E. apply Qnot_le_lt. intros L. apply Qle_bool_iff in L. congruence.
  - intros L. destruct (Qle_bool y x) eqn:E; [|reflexivity].
    apply Qle_bool_iff in E. lra.
Qed.

Lemma Qltb_false (x y : Q) : Qltb x y = false <-> y <= x.
Proof.
  unfold Qltb. rewrite negb_false_iff. apply Qle_bool_iff.
Qed.

Lemma Qle_bool_false (x y : Q) : Qle_bool x y = false <-> y < x.
Proof.
  pose proof (Qltb_true y x) as T. unfold Qltb in T.
  rewrite negb_true_iff in T. exact T.
Qed.

Lemma Qn_nonneg (n : nat) : 0 <= Qn n.
Proof. unfold Qn, Qle. simpl. lia. Qed.

Lemma min_Qmin (a b : Q) : min a b == Qmin a b.
Proof.
  unfold min. destruct (Qltb b a) eqn:E.
  - apply Qltb_true in E. symmetry. apply Q.min_r. lra.
  - apply Qltb_false in E. symmetry. apply Q.min_l. exact E.
Qed.

Lemma min_le_r (a b : Q) : min a b <= b.
Proof. rewrite min_Qmin. apply Q.le_min_r. Qed.

Lemma min_glb (a b c : Q) : c <= a -> c <= b -> c <= min a b.
Proof. intros. rewrite min_Qmin. apply Q.min_glb; assumption. Qed.

Lemma max_Qmax (a b : Q) : max a b == Qmax a b.
Proof.
  unfold max. destruct (Qltb a b) eqn:E.
  - apply Qltb_true in E. symmetry. apply Q.max_r. lra.
  - apply Qltb_false in E. symmetry. apply Q.max_l. exact E.
Qed.

Lemma max_le_l (a b : Q) : a <= max a b.
Proof. rewrite max_Qmax. apply Q.le_max_l. Qed.

Lemma max_le_r (a b : Q) : b <= max a b.
Proof. rewrite max_Qmax. apply Q.le_max_r. Qed.

(** Rounding to the nearest integer never crosses an integer. *)
Lemma round_half_even_ge (k : Z) (x : Q) :
  inject_Z k <= x -> (k <= round_half_even x)%Z.
Proof.
  intros L. unfold round_half_even.
  assert (k <= Qfloor x)%Z as F.
  { rewrite <- (Qfloor_Z k). apply Qfloor_resp_le. exact L. }
  destruct (Qcompare _ _); [destruct (Z.even _)|..]; lia.
Qed.

Lemma round_half_even_le (k : Z) (x : Q) :
  x <= inject_Z k -> (round_half_even x <= k)%Z.
Proof.
  intros L. unfold round_half_even.
  pose proof (Qfloor_le x) as F.
  assert (Qfloor x <= k)%Z as Fk.
  { rewrite Zle_Qle. lra. }
  destruct (Qcompare (x - inject_Z (Qfloor x)) (1 # 2)) eqn:C.
  - apply Qeq_alt in C.
    assert (Qfloor x < k)%Z by (rewrite Zlt_Qlt; lra).
    destruct (Z.even _); lia.
  - exact Fk.
  - apply Qgt_alt in C.
    assert (Qfloor x < k)%Z by (rewrite Zlt_Qlt; lra).
    lia.
Qed.

Lemma hundredths_le (a b : Z) : (a <= b)%Z -> a # 100 <= b # 100.
Proof. intros L. unfold Qle. simpl. lia. Qed.

(** [round(x, 2)] never crosses a multiple of 0.01. *)
Lemma round2_ge (k : Z) (x : Q) : k # 100 <= x -> k # 100 <= round2 x.
Proof.
  intros L. apply hundredths_le, round_half_even_ge.
  assert (inject_Z k == (k # 100) * 100) as -> by (unfold Qeq; simpl; lia).
  lra.
Qed.

Lemma round2_le (k : Z) (x : Q) : x <= k # 100 -> round2 x <= k # 100.
Proof.
  intros L. apply hundredths_le, round_half_even_le.
  assert (inject_Z k == (k # 100) * 100) as -> by (unfold Qeq; simpl; lia).
  lra.
Qed.

Lemma round2_nonneg (x : Q) : 0 <= x -> 0 <= round2 x.
Proof.
  intros L. pose proof (round2_ge 0 x) as R.
  assert (0 # 100 <= x) as L' by lra. specialize (R L'). lra.
Qed.

End PyFacts.

#[local] Ltac qbool :=
  repeat match goal with
    | H : Py.Qltb _ _ = true |- _ => apply PyFacts.Qltb_true in H
    | H : Py.Qltb _ _ = false |- _ => apply PyFacts.Qltb_false in H
    | H : Qle_bool _ _ = true |- _ => apply Qle_bool_iff in H
    | H : Qle_bool _ _ = false |- _ => apply PyFacts.Qle_bool_false in H
    end.

(** ** Substring search *)

Module StrFacts.

Local Open Scope string_scope.
Import Py.

Lemma prefix_append (n post : string) : String.prefix n (n +:+ post) = true.
Proof.
  induction n as [|c n IH].
  { change ("" +:+ post) with post. destruct post; reflexivity. }
  change (String c n +:+ post) with (String c (n +:+ post)). simpl.
  destruct (ascii_dec c c); [exact IH|congruence].
Qed.

Lemma contains_here (n h : string) : String.prefix n h = true -> contains n h = true.
Proof. intros P. destruct h; simpl in *; rewrite P; reflexivity. Qed.

(** [needle in hay] holds as soon as [hay] is [pre + needle + post] ... *)
Lemma contains_append (pre n post : string) :
  contains n (pre +:+ n +:+ post) = true.
Proof.
  induction pre as [|c pre IH].
  - change ("" +:+ n +:+ post) with (n +:+ post).
    apply contains_here, prefix_append.
  - change (String c pre +:+ n +:+ post) with (String c (pre +:+ n +:+ post)).
    simpl. rewrite IH. apply orb_true_r.
Qed.

Lemma prefix_inv (n h : string) :
  String.prefix n h = true -> exists post, h = n +:+ post.
Proof.
  revert h. induction n as [|c n IH]; intros h P.
  - exists h. reflexivity.
  - destruct h as [|d h]; simpl in P; [discriminate|].
    destruct (ascii_dec c d) as [->|]; [|discriminate].
    destruct (IH _ P) as [post ->]. exists post. reflexivity.
Qed.

(** ... and only then. *)
Lemma contains_inv (n h : string) :
  contains n h = true -> exists pre post, h = pre +:+ n +:+ post.
Proof.
  induction h as [|c h IH]; intros C; cbn [contains] in C.
  - rewrite orb_false_r in C. destruct (prefix_inv _ _ C) as [post E].
    exists "", post. exact E.
  - apply orb_true_iff in C as [P|C].
    + destruct (prefix_inv _ _ P) as [post E]. exists "", post. exact E.
    + destruct (IH C) as (pre & post & ->). exists (String c pre), post. reflexivity.
Qed.

End StrFacts.

(** ** The AI-content detector reports a confidence between 0 and 1 *)

Section DetectorRange.
Local Open Scope Q_scope.
Import Py PyFacts.

Lemma sentence_uniformity_nonneg (text : string) :
  0 <= AIDetector.score (AIDetector._check_sentence_uniformity text).
Proof.
  unfold AIDetector._check_sentence_uniformity. cbv zeta.
  destruct (_ <? 5)%nat; [simpl; lra|].
  cbn [AIDetector.score]. apply round2_nonneg.
  destruct (Re.findall_bullets text) as [|b bs]; [apply max_le_l|].
  destruct (_ && _); [|apply max_le_l].
  eapply Qle_trans; [apply (max_le_l 0)|apply max_le_l].
Qed.

Lemma _calculate_confidence_range p u v g r s :
  0 <= AIDetector.score u ->
  0 <= AIDetector._calculate_confidence p u v g r s <= 1.
Proof.
  intros U. unfold AIDetector._calculate_confidence. cbv zeta. split.
  - apply min_glb; [|lra]. apply Qle_shift_div_l; [lra|].
    repeat match goal with |- context [if ?b then _ else _] => destruct b end; lra.
  - apply min_le_r.
Qed.

Lemma detect_ai_content_confidence_range `{AIDetector.RegexChecks} (text : string) :
  0 <= AIDetector.confidence (AIDetector.detect_ai_content text) <= 1.
Proof.
  unfold AIDetector.detect_ai_content. cbv zeta. cbn [AIDetector.confidence].
  destruct (_calculate_confidence_range
              (AIDetector._check_ai_patterns text)
              (AIDetector._check_sentence_uniformity text)
              (AIDetector._check_vocabulary_diversity text)
              (AIDetector._check_perfect_grammar text)
              (AIDetector._check_repetitive_patterns text)
              (AIDetector._check_personal_content text)
              (sentence_uniformity_nonneg text)) as [L U].
  split; [apply round2_nonneg; exact L|].
  eapply Qle_trans; [apply (round2_le 100); lra|lra].
Qed.

End DetectorRange.

(** ** The scoring functions of app.py *)

Section Scoring.
Local Open Scope Q_scope.
Import Py PyFacts App.

(** C1.  [calculate_risk_score] is the formula of [scoreResume]: 30 times
    the AI confidence when the resume is flagged as AI-generated, 10 per
    critical, 5 per warning and 2 per minor flag, 15 for invalid dates,
    15 for an invalid career progression, the sum clamped to at most 100. *)
Theorem calculate_risk_score_formula (b : resume_results) :
  calculate_risk_score b == Spec.scoreResume b.
Proof.
  unfold calculate_risk_score, Spec.scoreResume. rewrite min_Qmin.
  apply Q.min_compat; [|reflexivity].
  destruct (AIDetector.is_ai_generated _), (ResumeAnalyzer.dates_valid _),
    (ResumeAnalyzer.career_progression_valid _); simpl; ring.
Qed.

Lemma get_risk_level_cases (s : Q) :
  (s < 15 /\ get_risk_level s = MINIMAL) \/
  (15 <= s < 30 /\ get_risk_level s = LOW) \/
  (30 <= s < 50 /\ get_risk_level s = MEDIUM) \/
  (50 <= s < 70 /\ get_risk_level s = HIGH) \/
  (70 <= s /\ get_risk_level s = CRITICAL).
Proof.
  unfold get_risk_level.
  destruct (Qle_bool 70 s) eqn:E70; [qbool; auto 10|].
  destruct (Qle_bool 50 s) eqn:E50; [qbool; auto 10|].
  destruct (Qle_bool 30 s) eqn:E30; [qbool; auto 10|].
  destruct (Qle_bool 15 s) eqn:E15; qbool; auto 10.
Qed.

(** C2.  [get_risk_level] maps exactly the scores below 15 to MINIMAL,
    [15, 30) to LOW, [30, 50) to MEDIUM, [50, 70) to HIGH and the scores
    from 70 on to CRITICAL; it is monotonic non-decreasing in the score;
    the boundary values 14/15, 29/30, 49/50 and 69/70 fall on the two
    sides of each threshold. *)
Theorem get_risk_level_partition :
  (forall s, get_risk_level s = MINIMAL <-> s < 15) /\
  (forall s, get_risk_level s = LOW <-> 15 <= s < 30) /\
  (forall s, get_risk_level s = MEDIUM <-> 30 <= s < 50) /\
  (forall s, get_risk_level s = HIGH <-> 50 <= s < 70) /\
  (forall s, get_risk_level s = CRITICAL <-> 70 <= s) /\
  (forall s1 s2, s1 <= s2 ->
     (Spec.rank (get_risk_level s1) <= Spec.rank (get_risk_level s2))%nat) /\
  (get_risk_level 14 = MINIMAL /\ get_risk_level 15 = LOW) /\
  (get_risk_level 29 = LOW /\ get_risk_level 30 = MEDIUM) /\
  (get_risk_level 49 = MEDIUM /\ get_risk_level 50 = HIGH) /\
  (get_risk_level 69 = HIGH /\ get_risk_level 70 = CRITICAL).
Proof.
  pose proof get_risk_level_cases as cases.
  repeat split; try reflexivity; intros.
  all: try (destruct (cases s) as [[? E]|[[? E]|[[? E]|[[? E]|[? E]]]]];
            rewrite E in *; first [reflexivity | discriminate | lra | exfalso; lra]).
  destruct (cases s1) as [[? E1]|[[? E1]|[[? E1]|[[? E1]|[? E1]]]]];
  destruct (cases s2) as [[? E2]|[[? E2]|[[? E2]|[[? E2]|[? E2]]]]];
  rewrite E1, E2; simpl; try lia; lra.
Qed.

Lemma Qn_le (n m : nat) : (n <= m)%nat -> Qn n <= Qn m.
Proof. intros L. unfold Qn. rewrite <- Zle_Qle. lia. Qed.

Lemma resume_score_nonneg (r : resume_verification) :
  0 <= AIDetector.confidence (rv_ai_detection r) -> 0 <= resume_score r.
Proof.
  intros C. unfold resume_score. cbv zeta.
  pose proof (Qn_nonneg (List.length (ResumeAnalyzer.critical (rv_red_flags r)))).
  pose proof (Qn_nonneg (List.length (ResumeAnalyzer.warning (rv_red_flags r)))).
  destruct (AIDetector.is_ai_generated _); lra.
Qed.

Lemma linkedin_score_nonneg d : 0 <= linkedin_score d.
Proof.
  unfold linkedin_score. cbv zeta.
  repeat match goal with |- context [if ?b then _ else _] => destruct b end; lra.
Qed.

Lemma presence_score_nonneg d : 0 <= presence_score d.
Proof.
  unfold presence_score. cbv zeta.
  repeat match goal with |- context [if ?b then _ else _] => destruct b end; lra.
Qed.

(** C3.  Both scoring entry points return a score between 0 and 100, for
    every bundle whose AI confidence is not negative (the detector
    reports a confidence in [0, 1], see [detect_ai_content_confidence_range]). *)
Theorem scores_within_0_100 (b : resume_results) (c : comprehensive_results) :
  0 <= AIDetector.confidence (ai_detection b) ->
  0 <= AIDetector.confidence (rv_ai_detection (resume_verification_of c)) ->
  (0 <= calculate_risk_score b <= 100) /\
  (0 <= calculate_comprehensive_risk c <= 100).
Proof.
  intros Cb Cc. split; split; try apply min_le_r; apply min_glb; try lra.
  - pose proof (Qn_nonneg (List.length (ResumeAnalyzer.critical (red_flags b)))).
    pose proof (Qn_nonneg (List.length (ResumeAnalyzer.warning (red_flags b)))).
    pose proof (Qn_nonneg (List.length (ResumeAnalyzer.minor (red_flags b)))).
    destruct (AIDetector.is_ai_generated _), (negb (ResumeAnalyzer.dates_valid _)),
      (negb (ResumeAnalyzer.career_progression_valid _)); lra.
  - pose proof (resume_score_nonneg _ Cc) as R.
    pose proof (presence_score_nonneg (presence (online_verification_of c))) as P.
    unfold weight_resume, weight_linkedin, weight_online_presence.
    destruct (linkedin (online_verification_of c)) as [d|].
    + pose proof (linkedin_score_nonneg d) as L.
      destruct (OnlinePresence.truthy _); lra.
    + lra.
Qed.

End Scoring.

(** ** Red flags and the comprehensive blend *)

Section RedFlags.
Local Open Scope Q_scope.
Import Py PyFacts App.
Context `{AIDetector.RegexChecks} `{ResumeAnalyzer.RegexChecks}.

(** The critical tier holds the trap-term finding and the exact-match
    finding, in this order, and nothing else. *)
Lemma critical_of_identify_red_flags (resume_text job_description : string) :
  ResumeAnalyzer.critical (ResumeAnalyzer.identify_red_flags resume_text job_description) =
  (if ResumeAnalyzer.has_trap_terms (ResumeAnalyzer._check_trap_terms resume_text)
   then [ResumeAnalyzer.TRAP_TERM_DETECTED
           (ResumeAnalyzer.terms_found (ResumeAnalyzer._check_trap_terms resume_text))]
   else [])
  ++
  (if negb (is_empty job_description)
      && Qltb 90 (ResumeAnalyzer.match_percentage
                    (ResumeAnalyzer._check_generic_content resume_text job_description))
   then [ResumeAnalyzer.EXACT_JD_MATCH
           (ResumeAnalyzer.match_percentage
              (ResumeAnalyzer._check_generic_content resume_text job_description))]
   else []).
Proof.
  unfold ResumeAnalyzer.identify_red_flags. cbv zeta.
  destruct (ResumeAnalyzer.has_trap_terms _), (is_empty job_description); cbn [negb andb];
    repeat match goal with |- context [if ?b then _ else _] => destruct b end;
    reflexivity.
Qed.

Lemma trap_term_found (resume_text trap pre post : string) :
  In trap ResumeAnalyzer.trap_terms ->
  lower resume_text = (pre +:+ lower trap +:+ post)%string ->
  ResumeAnalyzer.has_trap_terms (ResumeAnalyzer._check_trap_terms resume_text) = true.
Proof.
  intros I E. unfold ResumeAnalyzer._check_trap_terms.
  cbv zeta. cbn [ResumeAnalyzer.has_trap_terms]. apply Nat.ltb_lt.
  assert (In trap (List.filter (fun trap => contains (lower trap) (lower resume_text))
                               ResumeAnalyzer.trap_terms)) as F.
  { apply filter_In. split; [exact I|]. rewrite E. apply StrFacts.contains_append. }
  destruct (List.filter _ _); [destruct F|simpl; lia].
Qed.

(** C4.  A resume text in which a trap term occurs, whatever the case of
    its letters and whatever stands before and after it, gets at least one
    finding in the critical tier from [identify_red_flags], and its risk
    score is at least 10. *)
Theorem trap_term_yields_critical_finding
    (resume_text job_description trap pre post : string) :
  In trap ResumeAnalyzer.trap_terms ->
  lower resume_text = (pre +:+ lower trap +:+ post)%string ->
  let flags := ResumeAnalyzer.identify_red_flags resume_text job_description in
  (exists f, In f (ResumeAnalyzer.critical flags)
             /\ ResumeAnalyzer.severity f = ResumeAnalyzer.SEVERITY_CRITICAL) /\
  10 <= calculate_risk_score
          {| ai_detection := AIDetector.detect_ai_content resume_text;
             red_flags := flags;
             consistency_check := ResumeAnalyzer.check_consistency resume_text |}.
Proof.
  intros I E flags.
  pose proof (trap_term_found _ _ _ _ I E) as T.
  pose proof (critical_of_identify_red_flags resume_text job_description) as C.
  rewrite T in C. fold flags in C.
  split.
  - eexists. split; [rewrite C; left; reflexivity|reflexivity].
  - unfold calculate_risk_score. cbv zeta. cbn [ai_detection red_flags consistency_check].
    apply min_glb; [|lra].
    assert (1 <= Qn (List.length (ResumeAnalyzer.critical flags))) as L.
    { rewrite C. apply (Qn_le 1). simpl. lia. }
    pose proof (Qn_nonneg (List.length (ResumeAnalyzer.warning flags))).
    pose proof (Qn_nonneg (List.length (ResumeAnalyzer.minor flags))).
    destruct (detect_ai_content_confidence_range resume_text) as [? ?].
    repeat match goal with |- context [if ?b then _ else _] => destruct b end; lra.
Qed.

(** C5.  In [calculate_comprehensive_risk] the resume sub-score is 30 times
    the AI confidence (when flagged) plus 10 per critical and 5 per warning
    flag, with no minor, date or progression term; the blend weighs it by
    0.4 and the presence sub-score by 0.3; without LinkedIn data the sum has
    these two terms only, and with LinkedIn data the LinkedIn sub-score
    enters with the weight 0.3. *)
Theorem comprehensive_blend
    (resume_data : resume_verification) (presence_data : OnlinePresence.pydict) :
  let sub :=
    Spec.resumeSubScore (rv_ai_detection resume_data)
      (List.length (ResumeAnalyzer.critical (rv_red_flags resume_data)))
      (List.length (ResumeAnalyzer.warning (rv_red_flags resume_data))) in
  let results linkedin_data :=
    {| resume_verification_of := resume_data;
       online_verification_of :=
         {| linkedin := linkedin_data; presence := presence_data |} |} in
  resume_score resume_data == sub /\
  calculate_comprehensive_risk (results None)
    == Qmin ((4 # 10) * sub + (3 # 10) * presence_score presence_data) 100 /\
  (forall d,
     calculate_comprehensive_risk (results (Some d))
     == Qmin ((4 # 10) * sub
              + (if OnlinePresence.truthy (OnlinePresence.PDict d)
                 then (3 # 10) * linkedin_score d else 0)
              + (3 # 10) * presence_score presence_data) 100).
Proof.
  intros sub results.
  assert (resume_score resume_data == sub) as R.
  { unfold resume_score, sub, Spec.resumeSubScore. cbv zeta.
    destruct (AIDetector.is_ai_generated _); ring. }
  split; [exact R|]. subst results. split; [|intros d];
    unfold calculate_comprehensive_risk; cbv zeta;
    cbn [resume_verification_of online_verification_of linkedin presence];
    rewrite min_Qmin; apply Q.min_compat; try reflexivity;
    unfold weight_resume, weight_linkedin, weight_online_presence;
    try destruct (OnlinePresence.truthy _); lra.
Qed.

End RedFlags.

(** ** The descending stable sort *)

Section SortDesc.
Local Open Scope Q_scope.
Import Py PyFacts.
Context {A : Type} (key : A -> Q).

Lemma insert_desc_perm (x : A) (l : list A) :
  Permutation (x :: l) (insert_desc key x l).
Proof.
  induction l as [|y l IH]; simpl; [reflexivity|].
  destruct (Qltb (key x) (key y)); [|reflexivity].
  rewrite perm_swap. apply perm_skip, IH.
Qed.

Lemma sort_desc_perm (l : list A) : Permutation l (sort_desc key l).
Proof.
  induction l as [|x l IH]; simpl; [reflexivity|].
  rewrite <- insert_desc_perm. apply perm_skip, IH.
Qed.

Lemma insert_desc_sorted (x : A) (l : list A) :
  StronglySorted (fun a b => key b <= key a) l ->
  StronglySorted (fun a b => key b <= key a) (insert_desc key x l).
Proof.
  induction 1 as [|y l S IH F]; simpl.
  - repeat constructor.
  - destruct (Qltb (key x) (key y)) eqn:E.
    + apply Qltb_true in E. constructor; [exact IH|].
      rewrite <- insert_desc_perm. constructor; [lra|exact F].
    + apply Qltb_false in E. constructor; [constructor; assumption|].
      constructor; [exact E|].
      eapply Forall_impl; [exact F|]. simpl. intros z Z. lra.
Qed.

Lemma sort_desc_sorted (l : list A) :
  StronglySorted (fun a b => key b <= key a) (sort_desc key l).
Proof.
  induction l as [|x l IH]; simpl; [constructor|].
  apply insert_desc_sorted, IH.
Qed.

(** Inserting an element leaves the elements of every key in their order:
    it only passes elements of a strictly greater key. *)
Lemma insert_desc_filter (q : Q) (x : A) (l : list A) :
  List.filter (fun e => Qeq_bool (key e) q) (insert_desc key x l) =
  List.filter (fun e => Qeq_bool (key e) q) (x :: l).
Proof.
  induction l as [|y l IH]; [reflexivity|].
  cbn [insert_desc]. destruct (Qltb (key x) (key y)) eqn:E; [|reflexivity].
  apply Qltb_true in E. cbn [List.filter] in *. rewrite IH.
  destruct (Qeq_bool (key x) q) eqn:X, (Qeq_bool (key y) q) eqn:Y; try reflexivity.
  apply Qeq_bool_iff in X, Y. lra.
Qed.

Lemma sort_desc_stable (q : Q) (l : list A) :
  List.filter (fun e => Qeq_bool (key e) q) (sort_desc key l) =
  List.filter (fun e => Qeq_bool (key e) q) l.
Proof.
  induction l as [|x l IH]; [reflexivity|].
  cbn [sort_desc]. rewrite insert_desc_filter. cbn [List.filter]. rewrite IH.
  reflexivity.
Qed.

End SortDesc.

(** ** The batch endpoint *)

Section Batch.
Local Open Scope Q_scope.
Import Py PyFacts App.
Context `{AIDetector.RegexChecks}
        `{ResumeAnalyzer.RegexChecks} `{ResumeAnalyzer.Extractors}.

(** The loop appends to [results] what each file contributes on its own,
    in the order of the files, and counts the completed and the failed. *)
Lemma batch_fold (job_description : string) (files : list file)
    (results : list entry) (processed failed : nat) :
  fold_left (batch_step job_description) files (results, processed, failed) =
  (results ++ flat_map (Spec.entries_of job_description) files,
   (processed + List.length (List.filter (Spec.succeeds job_description) files))%nat,
   (failed + List.length (List.filter (Spec.fails job_description) files))%nat).
Proof.
  revert results processed failed.
  induction files as [|f files IH]; intros results processed failed.
  - simpl. rewrite app_nil_r, !Nat.add_0_r. reflexivity.
  - cbn [fold_left flat_map List.filter]. unfold batch_step at 2.
    unfold Spec.entries_of, Spec.succeeds, Spec.fails.
    destruct (try_file f job_description) as [[r|e]|]; rewrite IH;
      cbn [List.length app]; rewrite <- ?app_assoc, ?app_nil_r;
      rewrite ?Nat.add_succ_r; reflexivity.
Qed.

Lemma batch_loop_entries (files : list file) (job_description : string) :
  batch_loop files job_description =
  (flat_map (Spec.entries_of job_description) files,
   List.length (List.filter (Spec.succeeds job_description) files),
   List.length (List.filter (Spec.fails job_description) files)).
Proof. unfold batch_loop. rewrite batch_fold. reflexivity. Qed.

(** Inside the [try] block only the extraction raises. *)
Lemma try_file_raises (f : file) (job_description e : string) :
  try_file f job_description = Some (Raise e) <->
  is_resume_file f = true /\ ResumeAnalyzer.extract_text f = Raise e.
Proof.
  unfold try_file, verify_file. cbv zeta.
  destruct (is_resume_file f), (ResumeAnalyzer.extract_text f); cbn [negb];
    split; [intros E|intros [? E]|intros E|intros [? E]|intros E|intros [? E]
            |intros E|intros [? E]];
    try discriminate; try (injection E as E); try split; congruence.
Qed.

(** A file whose name has none of the three extensions leaves no trace. *)
Lemma skipped_file_leaves_no_entry (f : file) (job_description : string) :
  is_resume_file f = false ->
  Spec.entries_of job_description f = []
  /\ Spec.fails job_description f = false
  /\ Spec.succeeds job_description f = false.
Proof.
  intros S. unfold Spec.entries_of, Spec.fails, Spec.succeeds, try_file.
  rewrite S. repeat split.
Qed.

Lemma entries_counted (job_description : string) (files : list file) :
  List.length (flat_map (Spec.entries_of job_description) files) =
  (List.length (List.filter (Spec.succeeds job_description) files)
   + List.length (List.filter (Spec.fails job_description) files))%nat.
Proof.
  induction files as [|f files IH]; [reflexivity|].
  cbn [flat_map List.filter]. rewrite List.length_app, IH.
  unfold Spec.entries_of, Spec.succeeds, Spec.fails.
  destruct (try_file f job_description) as [[r|e]|]; simpl; lia.
Qed.

(** C6.  The results of a batch are in descending order of risk score, and
    the order is that of a stable sort: they are a rearrangement of the
    entries in submission order in which the entries of any one score keep
    their submission order.  On the scores 10, 90, 50, 90 the result is 90,
    90, 50, 10, the second entry before the fourth. *)
Theorem batch_results_sorted_stable (files : list file) (job_description : string) :
  match batch_verification files job_description with
  | OK body =>
      let submitted := (batch_loop files job_description).1.1 in
      StronglySorted Spec.by_score_desc (results body) /\
      Permutation submitted (results body) /\
      (forall q, List.filter (Spec.with_score q) (results body)
                 = List.filter (Spec.with_score q) submitted)
  | BadRequest _ => files = []
  end
  /\ map entry_risk_score (sort_desc entry_risk_score Examples.four_entries)
     = [90; 90; 50; 10]
  /\ map entry_filename (sort_desc entry_risk_score Examples.four_entries)
     = ["b.txt"; "d.txt"; "c.txt"; "a.txt"]%string.
Proof.
  split; [|split; reflexivity].
  unfold batch_verification. destruct files as [|f files]; [reflexivity|].
  destruct (batch_loop (f :: files) job_description) as [[rs p] fl].
  cbn [results fst]. split; [|split].
  - apply sort_desc_sorted.
  - apply sort_desc_perm.
  - intros q. apply sort_desc_stable.
Qed.

(** C8.  A batch with at least one file always answers with its results:
    no failure inside the loop aborts it.  The results are a rearrangement
    of what each file contributes on its own.  A file whose processing
    raises yields an entry with score 0, level ERROR and the message, and
    counts toward [failed]; a file whose processing completes yields its
    full entry and counts toward [processed]; the two counters add up to
    the number of entries.  (A file that leaves the loop body through
    [continue] neither fails nor completes.) *)
Theorem batch_failures_isolated (files : list file) (job_description : string) :
  match batch_verification files job_description with
  | OK body =>
      Permutation (flat_map (Spec.entries_of job_description) files) (results body) /\
      failed body = List.length (List.filter (Spec.fails job_description) files) /\
      processed body = List.length (List.filter (Spec.succeeds job_description) files) /\
      (processed body + failed body)%nat = List.length (results body) /\
      (forall f e,
         In f files -> try_file f job_description = Some (Raise e) ->
         exists r, In r (results body) /\
                   entry_filename r = filename f /\
                   entry_risk_score r = 0 /\
                   entry_risk_level r = ERROR /\
                   entry_error r = Some e) /\
      (forall f s,
         In f files -> try_file f job_description = Some (Ok s) ->
         In (Scored s) (results body))
  | BadRequest _ => files = []
  end.
Proof.
  unfold batch_verification. destruct files as [|f0 files]; [reflexivity|].
  rewrite batch_loop_entries. cbn [results failed processed].
  set (fs := f0 :: files).
  pose proof (sort_desc_perm entry_risk_score
                (flat_map (Spec.entries_of job_description) fs)) as P.
  repeat split.
  - exact P.
  - rewrite <- (Permutation_length P). symmetry. apply entries_counted.
  - intros f e I V.
    exists (Failed (filename f) (fst (splitext (filename f))) e).
    split; [|repeat split].
    eapply Permutation_in; [exact P|].
    apply in_flat_map. exists f. split; [exact I|].
    unfold Spec.entries_of. rewrite V. left. reflexivity.
  - intros f s I V.
    eapply Permutation_in; [exact P|].
    apply in_flat_map. exists f. split; [exact I|].
    unfold Spec.entries_of. rewrite V. left. reflexivity.
Qed.

End Batch.

(** ** The presence result and the presence sub-score *)

Section Presence.
Local Open Scope Q_scope.
Local Open Scope string_scope.
Import Py PyFacts OnlinePresence.
Context `{Lookups}.

Lemma append_to_lookup_ne (d d' : pydict) (k k' : string) (x : pyval) :
  append_to d k x = Some d' -> d !! k' = None -> d' !! k' = None.
Proof.
  unfold append_to. intros A N.
  destruct (d !! k) as [[| | | |l|]|] eqn:E; try discriminate.
  injection A as <-. rewrite lookup_insert_ne; [exact N|].
  intros ->. congruence.
Qed.

Lemma step_lookup (c : bool) (d d' : pydict) (k k' : string) (x : pyval) :
  (if c then append_to d k x else Some d) = Some d' ->
  d !! k' = None -> d' !! k' = None.
Proof.
  destruct c; [apply append_to_lookup_ne|]. intros [= <-]. exact id.
Qed.

#[local] Ltac other_key K :=
  let E := fresh in
  intros E; rewrite <- E in K; vm_compute in K; discriminate K.

(** [_analyze_presence_results] adds three keys and no other. *)
Lemma _analyze_presence_results_keys (results r : pydict) (k : string) :
  _analyze_presence_results results = Some r ->
  mem k ["osint_recommendations"; "presence_score"; "presence_level"] = false ->
  results !! k = None -> r !! k = None.
Proof.
  unfold _analyze_presence_results. intros A K N.
  apply bind_Some in A as (checks & _ & A).
  apply bind_Some in A as (email_check & _ & A).
  apply bind_Some in A as (r1 & S1 & A).
  apply bind_Some in A as (phone_check & _ & A).
  apply bind_Some in A as (r2 & S2 & A).
  apply bind_Some in A as (github_check & _ & A).
  apply bind_Some in A as (r3 & S3 & A).
  apply bind_Some in A as (ci & _ & A).
  apply bind_Some in A as (score & _ & A).
  injection A as <-.
  assert (r1 !! k = None) as N1.
  { destruct (truthy (get email_check "is_disposable"));
      [eapply append_to_lookup_ne; eassumption|].
    eapply step_lookup; eassumption. }
  assert (r2 !! k = None) as N2 by (eapply step_lookup; eassumption).
  assert (r3 !! k = None) as N3 by (eapply step_lookup; eassumption).
  rewrite !lookup_insert_ne; [exact N3|..]; other_key K.
Qed.

(** The keys of a presence result are the five of the literal in
    [verify_presence] and the two [_analyze_presence_results] adds. *)
Lemma verify_presence_keys (candidate_info r : pydict) (k : string) :
  verify_presence candidate_info = Some r ->
  mem k ["candidate_info"; "checks"; "red_flags"; "warnings";
         "osint_recommendations"; "presence_score"; "presence_level"] = false ->
  r !! k = None.
Proof.
  unfold verify_presence. intros V K.
  apply bind_Some in V as (email & _ & V).
  apply bind_Some in V as (phone & _ & V).
  apply bind_Some in V as (linkedin & _ & V).
  apply bind_Some in V as (github & _ & V).
  apply bind_Some in V as (google & _ & V).
  apply bind_Some in V as (breaches & _ & V).
  cbn [mem existsb] in K. repeat (apply orb_false_iff in K as [? K]).
  eapply _analyze_presence_results_keys; [exact V| |].
  - cbn [mem existsb]. repeat (apply orb_false_iff; split); assumption.
  - unfold dict. cbn [list_to_map foldr].
    rewrite !lookup_insert_ne; [apply lookup_empty|..];
      intros <-; discriminate.
Qed.

(** C9.  For every result that [verify_presence] produces, the presence
    sub-score of [calculate_comprehensive_risk] is 80, whatever the
    candidate's e-mail, phone, GitHub or Google findings: the result has
    none of the keys [has_linkedin], [has_github], [has_google_presence],
    [email_suspicious].  The presence term of the blend is therefore 24. *)
Theorem presence_subscore_is_80 (candidate_info r : pydict) :
  verify_presence candidate_info = Some r ->
  App.presence_score r == 80 /\
  forall resume_data linkedin_data,
    App.calculate_comprehensive_risk
      {| App.resume_verification_of := resume_data;
         App.online_verification_of :=
           {| App.linkedin := linkedin_data; App.presence := r |} |}
    == Qmin (App.resume_score resume_data * (4 # 10)
             + match linkedin_data with
               | Some d => if truthy (PDict d) then App.linkedin_score d * (3 # 10) else 0
               | None => 0
               end
             + 24) 100.
Proof.
  intros V.
  assert (App.presence_score r = 0 + 30 + 20 + 30) as P.
  { unfold App.presence_score, get. cbv zeta.
    rewrite !(verify_presence_keys _ _ _ V) by reflexivity. reflexivity. }
  split; [rewrite P; reflexivity|].
  intros resume_data linkedin_data.
  unfold App.calculate_comprehensive_risk. cbv zeta.
  cbn [App.resume_verification_of App.online_verification_of App.linkedin App.presence].
  rewrite P, min_Qmin. apply Q.min_compat; [|reflexivity].
  unfold App.weight_resume, App.weight_linkedin, App.weight_online_presence.
  destruct linkedin_data as [d|]; [destruct (truthy _)|]; ring.
Qed.

End Presence.

(** ** Sentence uniformity and vocabulary diversity *)

Section Uniformity.
Local Open Scope Q_scope.
Import Py PyFacts AIDetector.

Lemma map_filter_comm {A B : Type} (f : A -> B) (p : B -> bool) (l : list A) :
  map f (List.filter (fun x => p (f x)) l) = List.filter p (map f l).
Proof.
  induction l as [|x l IH]; [reflexivity|]. simpl.
  destruct (p (f x)); simpl; rewrite IH; reflexivity.
Qed.

Lemma qualifying_sentences_eq (text : string) :
  map strip (List.filter (fun s => (10 <? String.length (strip s))%nat)
                         (Re.split_terminators text))
  = Spec.qualifying_sentences text.
Proof.
  unfold Spec.qualifying_sentences.
  apply (map_filter_comm strip (fun s => (10 <? String.length s)%nat)).
Qed.

(** C7, as the code has it.  The sentence-uniformity score is 0 below five
    qualifying sentences; otherwise it is max(0, 1 - stddev/10) of the word
    counts, raised to at least 0.8 when the text has more than 3 bullet
    lines of which more than 90% start with an action verb, and rounded to
    two decimals.  The score enters the confidence sum with 20 points per
    unit. *)
Theorem sentence_uniformity_with_bullet_rule (text : string) :
  score (_check_sentence_uniformity text) =
    (if (List.length (Spec.qualifying_sentences text) <? 5)%nat then 0
     else round2 (if Spec.action_verb_bullets text
                  then max (Spec.uniformity text) (8 # 10)
                  else Spec.uniformity text)) /\
  forall p u v g r s,
    _calculate_confidence p u v g r s
    == min ((Spec.other_points p v g r s + score u * 20) / 100) 1.
Proof.
  split.
  - unfold _check_sentence_uniformity. cbv zeta.
    rewrite qualifying_sentences_eq.
    unfold Spec.uniformity, Spec.action_verb_bullets.
    destruct (_ <? 5)%nat eqn:E; [reflexivity|].
    cbn [score]. f_equal.
    unfold Spec.stddev, Spec.mean, Spec.word_counts.
    rewrite !List.map_map, !List.length_map.
    destruct (Re.findall_bullets text) as [|b bs]; reflexivity.
  - intros p u v g r s. unfold _calculate_confidence, Spec.other_points. cbv zeta.
    rewrite !min_Qmin. apply Q.min_compat; [|reflexivity].
    repeat match goal with |- context [if ?b then _ else _] => destruct b end; field.
Qed.

(** C7, as the specification states it, fails: on six bullet sentences of
    3 and 9 words in turn the formula max(0, 1 - stddev/10) gives 0.7 and
    the code reports 0.8. *)
Lemma bullet_resume_departs_from_formula :
  score (_check_sentence_uniformity Examples.bullet_resume) == 8 # 10 /\
  Spec.uniformity Examples.bullet_resume == 7 # 10 /\
  ~ (score (_check_sentence_uniformity Examples.bullet_resume)
     == Spec.uniformity Examples.bullet_resume).
Proof.
  split; [vm_compute; reflexivity|].
  split; [vm_compute; reflexivity|].
  vm_compute. discriminate.
Qed.

End Uniformity.

Section Diversity.
Local Open Scope Q_scope.
Import Py PyFacts AIDetector.
Context `{RegexChecks}.

(** C10.  A text of fewer than 50 words gets the vocabulary-diversity score
    0, and since 0 is below 0.35 the confidence sum receives the 15 points
    of an extreme diversity: the confidence is at least 0.15, whatever the
    other sub-checks return, and so is the confidence the detector reports. *)
Theorem short_text_scores_diversity_points (text : string) :
  (List.length (Re.findall_words (lower text)) < 50)%nat ->
  score (_check_vocabulary_diversity text) = 0 /\
  (forall p u g r s,
     0 <= score u ->
     15 # 100 <= _calculate_confidence p u (_check_vocabulary_diversity text) g r s) /\
  15 # 100 <= confidence (detect_ai_content text).
Proof.
  intros W.
  assert (score (_check_vocabulary_diversity text) = 0) as V.
  { unfold _check_vocabulary_diversity. cbv zeta.
    apply Nat.ltb_lt in W. rewrite W. reflexivity. }
  assert (forall p u g r s,
     0 <= score u ->
     15 # 100 <= _calculate_confidence p u (_check_vocabulary_diversity text) g r s) as C.
  { intros p u g r s U. unfold _calculate_confidence. cbv zeta. rewrite V.
    apply min_glb; [|lra]. apply Qle_shift_div_l; [lra|].
    change (Qltb 0 (35 # 100)) with true. rewrite orb_true_r.
    repeat match goal with |- context [if ?b then _ else _] => destruct b end; lra. }
  split; [exact V|]. split; [exact C|].
  unfold detect_ai_content. cbv zeta. cbn [confidence].
  apply (round2_ge 15), C, sentence_uniformity_nonneg.
Qed.

End Diversity.

(** ** The theorems with a premise, run on the sample inputs *)

Section Witnesses.
Local Open Scope Q_scope.
Import Examples.

Lemma scores_within_0_100_witness :
  0 <= AIDetector.confidence (App.ai_detection trap_bundle) /\
  (0 <= App.calculate_risk_score trap_bundle <= 100) /\
  (0 <= App.calculate_comprehensive_risk trap_comprehensive <= 100).
Proof.
  assert (0 <= AIDetector.confidence (App.ai_detection trap_bundle)) as C
    by (vm_compute; discriminate).
  split; [exact C|].
  exact (scores_within_0_100 trap_bundle trap_comprehensive C C).
Defined.

Lemma trap_term_yields_critical_finding_witness :
  (exists f,
     In f (ResumeAnalyzer.critical
             (@ResumeAnalyzer.identify_red_flags plain_resume_checks trap_resume ""))
     /\ ResumeAnalyzer.severity f = ResumeAnalyzer.SEVERITY_CRITICAL) /\
  10 <= App.calculate_risk_score trap_bundle.
Proof.
  apply (@trap_term_yields_critical_finding plain_ai_checks plain_resume_checks
           trap_resume "" "back-office engineering" "five years of " " at a bank").
  - left. reflexivity.
  - reflexivity.
Defined.

Lemma presence_subscore_is_80_witness :
  @OnlinePresence.verify_presence anonymous_lookups anonymous = Some anonymous_presence /\
  App.presence_score anonymous_presence == 80.
Proof.
  assert (@OnlinePresence.verify_presence anonymous_lookups anonymous
          = Some anonymous_presence) as V by (vm_compute; reflexivity).
  split; [exact V|].
  exact (proj1 (@presence_subscore_is_80 anonymous_lookups anonymous anonymous_presence V)).
Defined.

Lemma short_text_scores_diversity_points_witness :
  (List.length (Re.findall_words (Py.lower trap_resume)) < 50)%nat /\
  AIDetector.score (AIDetector._check_vocabulary_diversity trap_resume) = 0 /\
  15 # 100 <= AIDetector.confidence (@AIDetector.detect_ai_content plain_ai_checks trap_resume).
Proof.
  assert (List.length (Re.findall_words (Py.lower trap_resume)) < 50)%nat as W
    by (apply Nat.ltb_lt; reflexivity).
  split; [exact W|].
  destruct (@short_text_scores_diversity_points plain_ai_checks trap_resume W)
    as (V & _ & C).
  split; [exact V|exact C].
Defined.

End Witnesses.
